(** * Superstore dashboard: the hierarchical Region / State / City filter

    A shallow embedding of [Dashboard.py].  The script is a straight-line
    Streamlit program over pandas data frames; the part modelled here is
    the one with logic of its own:

    - lines 50-65: the date-filtered frame [df], the cascaded frames [df2]
      and [df3], and the option lists offered by the three multiselects;
    - lines 69-84: the eight-way [if]/[elif] chain assigning [filtered_df];
    - lines 129, 179 and 199: the two columns added in place to
      [filtered_df] and the final export of [df].

    Frames are Python objects: a variable holds a reference, [df[mask]]
    and [df.copy()] build new objects, [filtered_df = df] does not.  The
    script is therefore written in a small store-and-exception monad, and
    the pandas operations it calls are modelled on values first. *)

From Stdlib Require Import ZArith.
From stdpp Require Import base option list strings sorting pretty.

#[local] Set Warnings "-clear-no-such-hyp".
Local Open Scope string_scope.
Local Open Scope list_scope.

(** ** Data model *)

(** A calendar date, as [pd.to_datetime] leaves it in ["Order Date"]. *)
Record Date := mkDate { year : Z; month : Z; day : Z }.

Inductive Cell :=
  | CStr (s : string)
  | CNum (z : Z)
  | CDate (d : Date)
  | CPeriod (y m : Z).

(** One record of the data set.  The columns the script reads by name are
    fields; every other column of the file, and every column the script
    adds later, lives in [extra]. *)
Record Row := mkRow {
  Region : string;
  State : string;
  City : string;
  OrderDate : Date;
  extra : list (string * Cell)
}.

(** A frame: the column names and the rows, each under its index label.
    [pd.read_csv] labels the rows 0, 1, 2, ... and every later selection
    keeps the labels of the rows it keeps. *)
Record DataFrame := mkFrame {
  columns : list string;
  rows : list (nat * Row)
}.

Definition index (f : DataFrame) : list nat := (rows f).*1.

(** A boolean Series: a truth value under each index label. *)
Definition Mask := list (nat * bool).

Inductive PyError :=
  | IndexingError   (* "Unalignable boolean Series provided as indexer" *)
  | Dangling.       (* a reference to no object; never produced by the script *)

Inductive result (A : Type) :=
  | Ok (a : A)
  | Raise (e : PyError).
Arguments Ok {A} a.
Arguments Raise {A} e.

(** ** pandas, on values *)

Module Pandas.

(** Truthiness of a Python list: [if region] holds iff it is non-empty. *)
Definition truthy {A} (l : list A) : bool :=
  match l with [] => false | _ :: _ => true end.

(** A boolean Series computed row by row from [f]: same index as [f]. *)
Definition test_mask (p : Row → bool) (f : DataFrame) : Mask :=
  (λ lr, (lr.1, p lr.2)) <$> rows f.

(** [f[col].isin(sel)] *)
Definition isin (col : Row → string) (f : DataFrame) (sel : list string) : Mask :=
  test_mask (λ r, bool_decide (col r ∈ sel)) f.

(** [a <= b] on dates. *)
Definition date_leb (a b : Date) : bool :=
  (year a <? year b)%Z
  || ((year a =? year b)%Z
      && ((month a <? month b)%Z
          || ((month a =? month b)%Z && (day a <=? day b)%Z))).

(** [pd.read_csv]: the header, and the records under a fresh [RangeIndex]. *)
Definition read_csv (header : list string) (records : list Row) : DataFrame :=
  mkFrame header (zip (seq 0 (length records)) records).

(** Label lookup in a Series (first entry under the label). *)
Fixpoint mask_get (m : Mask) (l : nat) : option bool :=
  match m with
  | [] => None
  | (l', b) :: m' => if decide (l' = l) then Some b else mask_get m' l
  end.

(** [a & b].  When the two indexes are equal the operation is elementwise.
    Otherwise pandas aligns both operands on the union of the labels, a
    label absent from one side counting as [False] there.  (pandas sorts
    the joined index; the order is immaterial here, the only consumer
    being [getitem_bool], which looks labels up.) *)
Definition mask_and (a b : Mask) : Mask :=
  if decide (a.*1 = b.*1) then
    zip_with (λ x y, (x.1, x.2 && y.2)) a b
  else
    let labels := a.*1 ++ filter (λ l, l ∉ a.*1) b.*1 in
    (λ l, (l, default false (mask_get a l) && default false (mask_get b l)))
      <$> labels.

(** The key of [f[key]] is reindexed to the index of [f]; a label of [f]
    with no entry in the key raises. *)
Fixpoint reindex (key : Mask) (idx : list nat) : result (list bool) :=
  match idx with
  | [] => Ok []
  | l :: idx' =>
      match mask_get key l with
      | None => Raise IndexingError
      | Some b =>
          match reindex key idx' with
          | Ok bs => Ok (b :: bs)
          | Raise e => Raise e
          end
      end
  end.

(** Keep the positions whose flag is set. *)
Fixpoint take_true {A} (bs : list bool) (l : list A) : list A :=
  match bs, l with
  | b :: bs', x :: l' => if b then x :: take_true bs' l' else take_true bs' l'
  | _, _ => []
  end.

(** [f[key]] for a boolean Series [key]: a new frame, same columns. *)
Definition getitem_bool (f : DataFrame) (key : Mask) : result DataFrame :=
  match reindex key (index f) with
  | Ok bs => Ok (mkFrame (columns f) (take_true bs (rows f)))
  | Raise e => Raise e
  end.

(** [s.unique()]: the distinct values, in order of first appearance. *)
Fixpoint unique (l : list string) : list string :=
  match l with
  | [] => []
  | x :: l' => x :: filter (λ y, y ≠ x) (unique l')
  end.

Definition col_unique (col : Row → string) (f : DataFrame) : list string :=
  unique ((λ lr, col lr.2) <$> rows f).

(** Writing one cell of an added column. *)
Fixpoint set_cell (name : string) (c : Cell) (ex : list (string * Cell))
  : list (string * Cell) :=
  match ex with
  | [] => [(name, c)]
  | (n, c') :: ex' =>
      if decide (n = name) then (n, c) :: ex' else (n, c') :: set_cell name c ex'
  end.

(** [f[name] = g(f)] for a column computed row by row from [f] itself:
    an existing column is overwritten, a new one is appended.  The script
    assigns only ["month_year"] and ["month"], which are no fields of
    [Row]; their cells go to [extra]. *)
Definition set_column (name : string) (g : Row → Cell) (f : DataFrame) : DataFrame :=
  mkFrame
    (if decide (name ∈ columns f) then columns f else columns f ++ [name])
    ((λ lr, (lr.1, mkRow (Region lr.2) (State lr.2) (City lr.2) (OrderDate lr.2)
                     (set_cell name (g lr.2) (extra lr.2)))) <$> rows f).

(** [.dt.to_period("M")] and [.dt.month_name()] on ["Order Date"]. *)
Definition to_period_M (r : Row) : Cell :=
  CPeriod (year (OrderDate r)) (month (OrderDate r)).

Definition month_name (r : Row) : Cell :=
  CStr (nth (Z.to_nat (month (OrderDate r)) - 1)
          ["January"; "February"; "March"; "April"; "May"; "June"; "July";
           "August"; "September"; "October"; "November"; "December"] "").

(** The cell of a row under a column name. *)
Fixpoint get_cell (name : string) (ex : list (string * Cell)) : option Cell :=
  match ex with
  | [] => None
  | (n, c) :: ex' => if decide (n = name) then Some c else get_cell name ex'
  end.

Definition cell (r : Row) (c : string) : option Cell :=
  if decide (c = "Region") then Some (CStr (Region r))
  else if decide (c = "State") then Some (CStr (State r))
  else if decide (c = "City") then Some (CStr (City r))
  else if decide (c = "Order Date") then Some (CDate (OrderDate r))
  else get_cell c (extra r).

(** [f.to_csv(index=False)], up to the rendering of cells as text: the
    header line and one line of cells per row. *)
Definition to_csv (f : DataFrame) : list string * list (list (option Cell)) :=
  (columns f, (λ lr, cell lr.2 <$> columns f) <$> rows f).

End Pandas.

(** ** Objects and the script monad *)

(** A reference to a frame object, and the store of all frame objects.
    Objects are never freed; a new object takes the next free reference. *)
Definition loc := nat.
Abbreviation Store := (list DataFrame).

Definition Py (A : Type) : Type := Store → result (A * Store).

Definition ret {A} (a : A) : Py A := λ σ, Ok (a, σ).

Definition bind {A B} (m : Py A) (k : A → Py B) : Py B :=
  λ σ, match m σ with
       | Ok (a, σ') => k a σ'
       | Raise e => Raise e
       end.

Notation "'do' x <- m ; k" := (bind m (λ x, k))
  (at level 10, x name, m at level 100, k at level 200,
   format "'[v' 'do'  x  <-  m ; '/' k ']'").

Definition lift {A} (r : result A) : Py A :=
  λ σ, match r with Ok a => Ok (a, σ) | Raise e => Raise e end.

Definition deref (l : loc) : Py DataFrame :=
  λ σ, match σ !! l with Some f => Ok (f, σ) | None => Raise Dangling end.

Definition new (f : DataFrame) : Py loc :=
  λ σ, Ok (length σ, σ ++ [f]).

Definition update (l : loc) (f : DataFrame) : Py unit :=
  λ σ, Ok (tt, <[l := f]> σ).

(** ** The script *)

Module Dashboard.
Import Pandas.

(** [df[col].isin(sel)] *)
Definition col_isin (df : loc) (col : Row → string) (sel : list string) : Py Mask :=
  do f <- deref df; ret (isin col f sel).

(** [df[key]]: the selection is a new object. *)
Definition getitem (df : loc) (key : Mask) : Py loc :=
  do f <- deref df; do g <- lift (getitem_bool f key); new g.

(** [df.copy()] *)
Definition copy (df : loc) : Py loc :=
  do f <- deref df; new f.

(** [df[col].unique()], the option list handed to a multiselect. *)
Definition options (df : loc) (col : Row → string) : Py (list string) :=
  do f <- deref df; ret (col_unique col f).

(** [df[name] = g(df)]: the object is changed in place. *)
Definition setitem (df : loc) (name : string) (g : Row → Cell) : Py unit :=
  do f <- deref df; update df (set_column name g f).

(** Lines 25-50: the file is read and cut to the chosen date range,
    [df = df[(df["Order Date"] >= date1) & (df["Order Date"] <= date2)].copy()].
    The dates of the records stand for the column after [pd.to_datetime]. *)
Definition load (header : list string) (records : list Row) (date1 date2 : Date)
  : Py loc :=
  do raw <- new (read_csv header records);
  do f <- deref raw;
  let ge := test_mask (λ r, date_leb date1 (OrderDate r)) f in
  let le := test_mask (λ r, date_leb (OrderDate r) date2) f in
  do cut <- getitem raw (mask_and ge le);
  copy cut.

(** Line 58: [df2 = df[df["Region"].isin(region)] if region else df.copy()] *)
Definition region_level (df : loc) (region : list string) : Py loc :=
  if truthy region then (do m <- col_isin df Region region; getitem df m)
  else copy df.

(** Line 62: [df3 = df2[df2["State"].isin(state)] if state else df2.copy()] *)
Definition state_level (df2 : loc) (state : list string) : Py loc :=
  if truthy state then (do m <- col_isin df2 State state; getitem df2 m)
  else copy df2.

(** Lines 69-84, the conditions: which arm of the chain runs. *)
Inductive Arm :=
  | ArmNone            (* line 69: if not region and not state and not city *)
  | ArmRegion          (* line 71: elif not state and not city *)
  | ArmState           (* line 73: elif not region and not city *)
  | ArmStateCity       (* line 75: elif state and city *)
  | ArmRegionCity      (* line 77: elif region and city *)
  | ArmRegionState     (* line 79: elif region and state *)
  | ArmCity            (* line 81: elif city *)
  | ArmElse.           (* line 83: else *)

Definition arm (region state city : list string) : Arm :=
  if negb (truthy region) && negb (truthy state) && negb (truthy city) then ArmNone
  else if negb (truthy state) && negb (truthy city) then ArmRegion
  else if negb (truthy region) && negb (truthy city) then ArmState
  else if truthy state && truthy city then ArmStateCity
  else if truthy region && truthy city then ArmRegionCity
  else if truthy region && truthy state then ArmRegionState
  else if truthy city then ArmCity
  else ArmElse.

(** Lines 69-84, the bodies: what each arm assigns to [filtered_df]. *)
Definition arm_body (a : Arm) (df df3 : loc) (region state city : list string)
  : Py loc :=
  match a with
  | ArmNone => ret df
  | ArmRegion =>
      do r <- col_isin df Region region; getitem df r
  | ArmState =>
      do s <- col_isin df State state; getitem df s
  | ArmStateCity =>
      do s <- col_isin df State state; do c <- col_isin df3 City city;
      getitem df3 (mask_and s c)
  | ArmRegionCity =>
      do r <- col_isin df Region region; do c <- col_isin df3 City city;
      getitem df3 (mask_and r c)
  | ArmRegionState =>
      do r <- col_isin df Region region; do s <- col_isin df3 State state;
      getitem df3 (mask_and r s)
  | ArmCity =>
      do c <- col_isin df3 City city; getitem df3 c
  | ArmElse =>
      do r <- col_isin df3 Region region; do s <- col_isin df3 State state;
      do c <- col_isin df3 City city;
      getitem df3 (mask_and (mask_and r s) c)
  end.

Definition filter_chain (df df3 : loc) (region state city : list string) : Py loc :=
  arm_body (arm region state city) df df3 region state city.

(** What the run of the script leaves behind, for the properties below. *)
Record Outcome := mkOutcome {
  region_options : list string;  (* offered by "Pick your Region" *)
  state_options : list string;   (* offered by "Pick the State" *)
  city_options : list string;    (* offered by "Pick the City" *)
  filtered_df : loc;
  csv : list string * list (list (option Cell))   (* "Data.csv" *)
}.

(** Lines 57-84: the sidebar and the filter chain, for the selections
    [region], [state] and [city] made in the three multiselects. *)
Definition sidebar (df : loc) (region state city : list string)
  : Py (list string * list string * list string * loc) :=
  do rgs <- options df Region;                            (* 57 *)
  do df2 <- region_level df region;                       (* 58 *)
  do sts <- options df2 State;                            (* 61 *)
  do df3 <- state_level df2 state;                        (* 62 *)
  do cts <- options df3 City;                             (* 65 *)
  do fd <- filter_chain df df3 region state city;         (* 69-84 *)
  ret (rgs, sts, cts, fd).

(** Lines 57-200, as far as frames are written or exported.  The charts
    and the group-by tables in between only read [filtered_df]. *)
Definition script (df : loc) (region state city : list string) : Py Outcome :=
  do side <- sidebar df region state city;
  let fd := side.2 in
  do _ <- setitem fd "month_year" to_period_M;            (* 129 *)
  do _ <- setitem fd "month" month_name;                  (* 179 *)
  do f <- deref df;                                       (* 199 *)
  ret (mkOutcome side.1.1.1 side.1.1.2 side.1.2 fd (to_csv f)).

(** One run of the whole script, from the file to the export. *)
Definition session (header : list string) (records : list Row)
    (date1 date2 : Date) (region state city : list string) : result Outcome :=
  match (do df <- load header records date1 date2;
         script df region state city) [] with
  | Ok (out, _) => Ok out
  | Raise e => Raise e
  end.

(** *** The functions of the specification, read off the script *)

(** The script starts with one frame object, the date-filtered [df]. *)
Definition run {A} (m : loc → Py A) (dataset : DataFrame) : result A :=
  match m 0 [dataset] with
  | Ok (a, _) => Ok a
  | Raise e => Raise e
  end.

(** [resolve]: the frame [filtered_df] refers to after line 84. *)
Definition resolve (dataset : DataFrame) (region state city : list string)
  : result DataFrame :=
  run (λ df, do side <- sidebar df region state city; deref side.2) dataset.

(** [availableStates]: the options of the State multiselect (line 61). *)
Definition availableStates (dataset : DataFrame) (region : list string)
  : result (list string) :=
  run (λ df, do df2 <- region_level df region; options df2 State) dataset.

(** [availableCities]: the options of the City multiselect (line 65). *)
Definition availableCities (dataset : DataFrame) (region state : list string)
  : result (list string) :=
  run (λ df, do df2 <- region_level df region; do df3 <- state_level df2 state;
             options df3 City) dataset.

End Dashboard.

(** ** The chain written over the cascaded frame only *)

(** Lines 76 and 78 take one of their two masks over [df] and the other
    over [df3].  These are the same selections with every mask over [df3],
    and the selection of line 82, which uses the city mask alone. *)
Module Cascaded.
Import Pandas Dashboard.

Definition city_alone (df3 : loc) (city : list string) : Py loc :=
  do c <- col_isin df3 City city; getitem df3 c.

Definition state_city (df3 : loc) (state city : list string) : Py loc :=
  do s <- col_isin df3 State state; do c <- col_isin df3 City city;
  getitem df3 (mask_and s c).

Definition region_city (df3 : loc) (region city : list string) : Py loc :=
  do r <- col_isin df3 Region region; do c <- col_isin df3 City city;
  getitem df3 (mask_and r c).

End Cascaded.

(** ** The resolution table of the specification *)

(** [allows], [accepts] and [table] follow the words of the specification,
    not the script: an empty selection constrains nothing, a non-empty one
    demands membership, and the constraints of the three levels hold
    together.  The other definitions name the frames the results below are
    stated with. *)
Module Table.

Definition allows (col : Row → string) (sel : list string) (r : Row) : Prop :=
  sel ≠ [] → col r ∈ sel.

Definition accepts (region state city : list string) (r : Row) : Prop :=
  allows Region region r ∧ allows State state r ∧ allows City city r.

Global Instance allows_dec col sel r : Decision (allows col sel r).
Proof. unfold allows. apply _. Defined.

Global Instance accepts_dec region state city r :
  Decision (accepts region state city r).
Proof. unfold accepts. apply _. Defined.

(** The rows of [f] that satisfy [P], under their labels and in order. *)
Definition select (P : Row → Prop) `{!∀ r, Decision (P r)} (f : DataFrame)
  : DataFrame :=
  mkFrame (columns f) (filter (λ lr, P lr.2) (rows f)).

(** The eight rows of the table, one by one. *)
Definition table (region state city : list string) (r : Row) : Prop :=
  match region, state, city with
  | [], [], [] => True
  | _ :: _, [], [] => Region r ∈ region
  | [], _ :: _, [] => State r ∈ state
  | [], [], _ :: _ => City r ∈ city
  | _ :: _, _ :: _, [] => Region r ∈ region ∧ State r ∈ state
  | _ :: _, [], _ :: _ => Region r ∈ region ∧ City r ∈ city
  | [], _ :: _, _ :: _ => State r ∈ state ∧ City r ∈ city
  | _ :: _, _ :: _, _ :: _ =>
      Region r ∈ region ∧ State r ∈ state ∧ City r ∈ city
  end.

(** The records whose order date lies in the chosen range. *)
Definition in_range (date1 date2 : Date) (r : Row) : Prop :=
  Pandas.date_leb date1 (OrderDate r) && Pandas.date_leb (OrderDate r) date2.

(** The two columns of lines 129 and 179, added to a frame. *)
Definition with_months (f : DataFrame) : DataFrame :=
  Pandas.set_column "month" Pandas.month_name
    (Pandas.set_column "month_year" Pandas.to_period_M f).

(** The frame the cascade leaves in [df3]: the data set cut by the region
    selection, then by the state selection. *)
Definition cascaded (ds : DataFrame) (region state : list string) : DataFrame :=
  select (allows State state) (select (allows Region region) ds).

End Table.

(** ** The scenario of the specification *)

Module Scenario.
Import Pandas Dashboard.

Definition d0 : Date := mkDate 2017 1 1.
Definition ny : Row := mkRow "East" "NY" "NYC" d0 [].
Definition la : Row := mkRow "West" "CA" "LA" d0 [].
Definition sf : Row := mkRow "West" "CA" "SF" d0 [].
Definition cols : list string := ["Order Date"; "City"; "State"; "Region"].
Definition dataset : DataFrame := mkFrame cols [(0, ny); (1, la); (2, sf)].

End Scenario.

(** ** The date range (lines 39-47) *)

Module Dates.
Import Pandas.





End Dates.

(** ** The data viewer (line 195) *)

Module Views.
Import Pandas.

(** Every [step]-th element of [l], the first one after [wait] elements. *)
Fixpoint every {A} (step wait : nat) (l : list A) : list A :=
  match l with
  | [] => []
  | x :: l' =>
      match wait with
      | 0 => x :: every step (step - 1) l'
      | S w => every step w l'
      end
  end.

(** [l[start:stop:step]] for bounds that are not negative and a positive
    step: bounds beyond the end are clipped, nothing raises. *)
Definition py_slice {A} (start stop step : nat) (l : list A) : list A :=
  every step 0 (drop start (take stop l)).

(** [f.iloc[:n, start:stop:step]]: rows and columns by position. *)
Definition iloc (n start stop step : nat) (f : DataFrame) : DataFrame :=
  mkFrame (py_slice start stop step (columns f)) (py_slice 0 n 1 (rows f)).

(** Line 195: [filtered_df.iloc[:500, 1:20:2]]. *)
Definition view_data (fd : loc) : Py DataFrame :=
  do f <- deref fd; ret (iloc 500 1 20 2 f).

End Views.

(** ** The keys of the aggregates (lines 121 and 133) *)

(** [groupby] sorts the distinct keys; as strings they are compared
    character by character.  The sums of ["Sales"] taken per key are
    floating-point sums and are left out: what is modelled is the key
    column of the aggregate. *)
Module Aggregates.
Import Pandas.

Definition group_keys (key : Row → string) (f : DataFrame) : list string :=
  merge_sort String.le (col_unique key f).

(** Line 121: the column ["Region"] of
    [filtered_df.groupby(by="Region", as_index=False)["Sales"].sum()]. *)
Definition region_table_keys (fd : loc) : Py (list string) :=
  do f <- deref fd; ret (group_keys Region f).

(** [%b], the abbreviated month name. *)
Definition month_abbr (m : Z) : string :=
  nth (Z.to_nat m - 1)
    ["Jan"; "Feb"; "Mar"; "Apr"; "May"; "Jun"; "Jul"; "Aug"; "Sep"; "Oct";
     "Nov"; "Dec"] "".

(** [.strftime("%Y : %b")] on a monthly period.  The years of a pandas
    timestamp have four digits. *)
Definition strftime_Y_b (y m : Z) : string :=
  pretty y +:+ " : " +:+ month_abbr m.

(** The key of a row at line 133: its ["month_year"] cell, formatted.  Line
    129 has put a period there in every row. *)
Definition period_key (r : Row) : string :=
  match get_cell "month_year" (extra r) with
  | Some (CPeriod y m) => strftime_Y_b y m
  | _ => ""
  end.

(** Line 133: the column ["month_year"] of [linechart], which is
    [filtered_df.groupby(filtered_df["month_year"].dt.strftime("%Y : %b"))
    ["Sales"].sum()] after [reset_index()]. *)
Definition linechart_keys (fd : loc) : Py (list string) :=
  do f <- deref fd; ret (group_keys period_key f).

End Aggregates.

(** ** Facts about the pandas operations *)

Section pandas_facts.
Import Pandas Table.

Lemma mask_get_Some_label (m : Mask) l b : mask_get m l = Some b → l ∈ m.*1.
Proof.
  induction m as [|[l' b'] m IH]; simpl; [done|].
  case_decide; [intros _; subst; left | intros Hm; right; auto].
Qed.

Lemma mask_get_tabulate (g : nat → bool) (labels : list nat) l :
  l ∈ labels → mask_get ((λ l, (l, g l)) <$> labels) l = Some (g l).
Proof.
  induction labels as [|l' labels IH]; simpl; [by intros ?%elem_of_nil|].
  intros Hl. case_decide; [by subst|].
  apply IH. apply elem_of_cons in Hl as [->|]; done.
Qed.

(** On a frame with distinct labels, a row-by-row mask holds at each label
    the test of the row under that label. *)
Lemma mask_get_test p (f : DataFrame) l r :
  NoDup (index f) → (l, r) ∈ rows f → mask_get (test_mask p f) l = Some (p r).
Proof.
  unfold test_mask, index. induction (rows f) as [|[l' r'] rs IH]; csimpl.
  - by intros _ ?%elem_of_nil.
  - intros [Hl' Hnd]%NoDup_cons [Heq|Hin]%elem_of_cons.
    + simplify_eq. by rewrite decide_True.
    + rewrite decide_False; [by apply IH|].
      intros ->. apply Hl'. by apply (list_elem_of_fmap_2 fst _ (l, r)).
Qed.

Lemma mask_get_isin col (f : DataFrame) sel l r :
  NoDup (index f) → (l, r) ∈ rows f →
  mask_get (isin col f sel) l = Some (bool_decide (col r ∈ sel)).
Proof. apply (mask_get_test (λ r, bool_decide (col r ∈ sel))). Qed.

Lemma mask_get_zip (a b : Mask) l x y :
  a.*1 = b.*1 → mask_get a l = Some x → mask_get b l = Some y →
  mask_get (zip_with (λ p q, (p.1, p.2 && q.2)) a b) l = Some (x && y).
Proof.
  revert b. induction a as [|[la xa] a IH]; intros [|[lb xb] b]; simpl; try done.
  intros [= -> Heq]. case_decide; [by intros [= ->] [= ->]|]. by apply IH.
Qed.

(** Where both operands of [&] have an entry, so has the result, and it is
    their conjunction, whether or not the operands had to be aligned. *)
Lemma mask_get_and (a b : Mask) l x y :
  mask_get a l = Some x → mask_get b l = Some y →
  mask_get (mask_and a b) l = Some (x && y).
Proof.
  intros Ha Hb. unfold mask_and. case_decide.
  - by apply mask_get_zip.
  - rewrite (mask_get_tabulate
      (λ l, default false (mask_get a l) && default false (mask_get b l))).
    + by rewrite Ha, Hb.
    + apply elem_of_app. left. by eapply mask_get_Some_label.
Qed.

Lemma reindex_take (P : Row → Prop) `{!∀ r, Decision (P r)}
    (key : Mask) (rs : list (nat * Row)) :
  (∀ l r, (l, r) ∈ rs → mask_get key l = Some (bool_decide (P r))) →
  ∃ bs, reindex key rs.*1 = Ok bs
        ∧ take_true bs rs = filter (λ lr, P lr.2) rs.
Proof.
  induction rs as [|[l r] rs IH]; csimpl; intros Hkey; [by exists []|].
  destruct IH as (bs & Hre & Hbs).
  { intros l' r' Hin. apply Hkey. by right. }
  rewrite (Hkey l r), Hre by left. eexists; split; [done|].
  rewrite filter_cons. simpl. rewrite Hbs. by case_bool_decide; case_decide.
Qed.

(** Boolean indexing with a key that holds, at the label of every row, the
    decision of [P] on that row: it succeeds and selects by [P]. *)
Lemma getitem_bool_select (P : Row → Prop) `{!∀ r, Decision (P r)}
    (f : DataFrame) (key : Mask) :
  (∀ l r, (l, r) ∈ rows f → mask_get key l = Some (bool_decide (P r))) →
  getitem_bool f key = Ok (select P f).
Proof.
  intros Hkey. destruct (reindex_take P key (rows f) Hkey) as (bs & Hre & Hbs).
  unfold getitem_bool, select, index. by rewrite Hre, Hbs.
Qed.

Lemma select_index_NoDup (P : Row → Prop) `{!∀ r, Decision (P r)} f :
  NoDup (index f) → NoDup (index (select P f)).
Proof.
  unfold index, select. simpl. intros Hnd. eapply sublist_NoDup; [exact Hnd|].
  apply fmap_sublist, sublist_filter.
Qed.

Lemma select_rows_elem (P : Row → Prop) `{!∀ r, Decision (P r)} f lr :
  lr ∈ rows (select P f) ↔ P lr.2 ∧ lr ∈ rows f.
Proof. unfold select. simpl. by rewrite list_elem_of_filter. Qed.

Lemma select_select (P Q : Row → Prop)
    `{!∀ r, Decision (P r), !∀ r, Decision (Q r)} f :
  select P (select Q f) = select (λ r, P r ∧ Q r) f.
Proof. unfold select. simpl. by rewrite list_filter_filter. Qed.

Lemma select_iff (P Q : Row → Prop)
    `{!∀ r, Decision (P r), !∀ r, Decision (Q r)} f :
  (∀ r, P r ↔ Q r) → select P f = select Q f.
Proof.
  intros HPQ. unfold select. f_equal. apply list_filter_iff.
  intros lr. apply HPQ.
Qed.

Lemma select_all (P : Row → Prop) `{!∀ r, Decision (P r)} f :
  (∀ r, P r) → select P f = f.
Proof.
  intros HP. destruct f as [cs rs]. unfold select. simpl. f_equal.
  induction rs as [|lr rs IH]; [done|].
  by rewrite filter_cons_True, IH.
Qed.

End pandas_facts.

(** ** Running the script *)

Section script_facts.
Import Pandas Table Dashboard.

Lemma bind_run {A B} (m : Py A) (k : A → Py B) σ a σ' :
  m σ = Ok (a, σ') → bind m k σ = k a σ'.
Proof. unfold bind. by intros ->. Qed.

Lemma col_isin_run σ l f col sel :
  σ !! l = Some f → col_isin l col sel σ = Ok (isin col f sel, σ).
Proof. unfold col_isin, bind, deref, ret. by intros ->. Qed.

Lemma getitem_run σ l f key g :
  σ !! l = Some f → getitem_bool f key = Ok g →
  getitem l key σ = Ok (length σ, σ ++ [g]).
Proof. unfold getitem, bind, deref, lift, new. by intros -> ->. Qed.

Lemma copy_run σ l f : σ !! l = Some f → copy l σ = Ok (length σ, σ ++ [f]).
Proof. unfold copy, bind, deref, new. by intros ->. Qed.

Lemma options_run σ l f col :
  σ !! l = Some f → options l col σ = Ok (col_unique col f, σ).
Proof. unfold options, bind, deref, ret. by intros ->. Qed.

Lemma setitem_run σ l f name g :
  σ !! l = Some f → setitem l name g σ = Ok (tt, <[l := set_column name g f]> σ).
Proof. unfold setitem, bind, deref, update. by intros ->. Qed.

Lemma deref_run σ l f : σ !! l = Some f → deref l σ = Ok (f, σ).
Proof. unfold deref. by intros ->. Qed.

Lemma lookup_new (σ : Store) (f : DataFrame) : (σ ++ [f]) !! length σ = Some f.
Proof. by apply list_lookup_middle. Qed.

(** [l[l[col].isin(sel)]]: mask and frame share the index. *)
Lemma getitem_isin_run σ l f col sel :
  σ !! l = Some f → NoDup (index f) →
  (do m <- col_isin l col sel; getitem l m) σ
  = Ok (length σ, σ ++ [select (λ r, col r ∈ sel) f]).
Proof.
  intros Hl Hnd. rewrite (bind_run _ _ _ _ _ (col_isin_run _ _ _ col sel Hl)).
  apply (getitem_run _ _ f); [done|].
  apply getitem_bool_select. intros i r Hin. by apply mask_get_isin.
Qed.

(** [df3[df[colA].isin(selA) & df3[colB].isin(selB)]], the mixed form of
    lines 76, 78 and 80: the left mask is taken over [df], the right one and
    the selection over [df3], whose rows are rows of [df]. *)
Lemma getitem_and_run σ df ds df3 f3 colA selA colB selB :
  σ !! df = Some ds → σ !! df3 = Some f3 →
  NoDup (index ds) → NoDup (index f3) → rows f3 ⊆ rows ds →
  (do a <- col_isin df colA selA; do b <- col_isin df3 colB selB;
   getitem df3 (mask_and a b)) σ
  = Ok (length σ, σ ++ [select (λ r, colA r ∈ selA ∧ colB r ∈ selB) f3]).
Proof.
  intros Hdf Hdf3 Hnd Hnd3 Hsub.
  rewrite (bind_run _ _ _ _ _ (col_isin_run _ _ _ colA selA Hdf)).
  rewrite (bind_run _ _ _ _ _ (col_isin_run _ _ _ colB selB Hdf3)).
  apply (getitem_run _ _ f3); [done|].
  apply getitem_bool_select. intros i r Hin.
  rewrite (mask_get_and _ _ i (bool_decide (colA r ∈ selA))
             (bool_decide (colB r ∈ selB))).
  - f_equal. by rewrite bool_decide_and.
  - apply mask_get_isin; [done|]. by apply Hsub.
  - by apply mask_get_isin.
Qed.

Lemma level_select col sel f :
  select (λ r, col r ∈ sel) f = select (allows col sel) f ∨ sel = [].
Proof.
  destruct sel as [|s sel]; [by right|left].
  apply select_iff. intros r. unfold allows. split; [done|intros H; by apply H].
Qed.

Lemma region_level_run σ df ds region :
  σ !! df = Some ds → NoDup (index ds) →
  region_level df region σ
  = Ok (length σ, σ ++ [select (allows Region region) ds]).
Proof.
  intros Hdf Hnd. unfold region_level. destruct region as [|s region]; simpl.
  - rewrite (copy_run _ _ _ Hdf), select_all; [done|]. by intros r ?.
  - rewrite (getitem_isin_run _ _ _ Region (s :: region) Hdf Hnd).
    by destruct (level_select Region (s :: region) ds) as [->|?].
Qed.

Lemma state_level_run σ df2 f2 state :
  σ !! df2 = Some f2 → NoDup (index f2) →
  state_level df2 state σ
  = Ok (length σ, σ ++ [select (allows State state) f2]).
Proof.
  intros Hdf Hnd. unfold state_level. destruct state as [|s state]; simpl.
  - rewrite (copy_run _ _ _ Hdf), select_all; [done|]. by intros r ?.
  - rewrite (getitem_isin_run _ _ _ State (s :: state) Hdf Hnd).
    by destruct (level_select State (s :: state) f2) as [->|?].
Qed.

Lemma cascaded_NoDup ds region state :
  NoDup (index ds) → NoDup (index (cascaded ds region state)).
Proof. intros. unfold cascaded. by do 2 apply select_index_NoDup. Qed.

Lemma cascaded_subseteq ds region state :
  rows (cascaded ds region state) ⊆ rows ds.
Proof. intros lr. unfold cascaded. rewrite !select_rows_elem. tauto. Qed.

Lemma allows_nil col r : allows col [] r ↔ True.
Proof. unfold allows. tauto. Qed.

Lemma allows_cons col s sel r : allows col (s :: sel) r ↔ col r ∈ s :: sel.
Proof. unfold allows. split; [intros H; by apply H | done]. Qed.

Local Ltac select_eq :=
  unfold cascaded; rewrite ?select_select; apply select_iff;
  intros ?; unfold accepts; rewrite ?allows_nil, ?allows_cons; tauto.

(** The chain as the script writes it, conditions and bodies together. *)
Lemma filter_chain_as_written df df3 region state city :
  filter_chain df df3 region state city
  = if negb (truthy region) && negb (truthy state) && negb (truthy city) then
      ret df
    else if negb (truthy state) && negb (truthy city) then
      do r <- col_isin df Region region; getitem df r
    else if negb (truthy region) && negb (truthy city) then
      do s <- col_isin df State state; getitem df s
    else if truthy state && truthy city then
      do s <- col_isin df State state; do c <- col_isin df3 City city;
      getitem df3 (mask_and s c)
    else if truthy region && truthy city then
      do r <- col_isin df Region region; do c <- col_isin df3 City city;
      getitem df3 (mask_and r c)
    else if truthy region && truthy state then
      do r <- col_isin df Region region; do s <- col_isin df3 State state;
      getitem df3 (mask_and r s)
    else if truthy city then
      do c <- col_isin df3 City city; getitem df3 c
    else
      do r <- col_isin df3 Region region; do s <- col_isin df3 State state;
      do c <- col_isin df3 City city;
      getitem df3 (mask_and (mask_and r s) c).
Proof. by destruct region, state, city. Qed.

(** Lines 69-84 on a store where [df] and [df3] are as lines 50-62 leave
    them: the first arm hands [df] itself on, every other arm a new frame
    holding the rows the table accepts. *)
Lemma filter_chain_run σ df ds df3 region state city :
  σ !! df = Some ds → σ !! df3 = Some (cascaded ds region state) →
  NoDup (index ds) →
  filter_chain df df3 region state city σ
  = match arm region state city with
    | ArmNone => Ok (df, σ)
    | _ => Ok (length σ, σ ++ [select (accepts region state city) ds])
    end.
Proof.
  intros Hdf Hdf3 Hnd.
  pose proof (cascaded_NoDup ds region state Hnd) as Hnd3.
  pose proof (cascaded_subseteq ds region state) as Hsub.
  unfold filter_chain.
  destruct region as [|r region], state as [|s state], city as [|c city];
    cbv [arm truthy negb andb arm_body].
  - done.
  - rewrite (getitem_isin_run _ _ _ City _ Hdf3 Hnd3). do 4 f_equal. select_eq.
  - rewrite (getitem_isin_run _ _ _ State _ Hdf Hnd). do 4 f_equal. select_eq.
  - rewrite (getitem_and_run _ _ _ _ _ State _ City _ Hdf Hdf3 Hnd Hnd3 Hsub).
    do 4 f_equal. select_eq.
  - rewrite (getitem_isin_run _ _ _ Region _ Hdf Hnd). do 4 f_equal. select_eq.
  - rewrite (getitem_and_run _ _ _ _ _ Region _ City _ Hdf Hdf3 Hnd Hnd3 Hsub).
    do 4 f_equal. select_eq.
  - rewrite (getitem_and_run _ _ _ _ _ Region _ State _ Hdf Hdf3 Hnd Hnd3 Hsub).
    do 4 f_equal. select_eq.
  - rewrite (getitem_and_run _ _ _ _ _ State _ City _ Hdf Hdf3 Hnd Hnd3 Hsub).
    do 4 f_equal. select_eq.
Qed.

(** Lines 57-84 from any store in which [df] refers to [ds]. *)
Lemma sidebar_run σ df ds region state city :
  σ !! df = Some ds → NoDup (index ds) →
  let f2 := select (allows Region region) ds in
  let f3 := cascaded ds region state in
  let σ3 := (σ ++ [f2]) ++ [f3] in
  sidebar df region state city σ
  = match arm region state city with
    | ArmNone =>
        Ok ((col_unique Region ds, col_unique State f2, col_unique City f3, df),
            σ3)
    | _ =>
        Ok ((col_unique Region ds, col_unique State f2, col_unique City f3,
             length σ3),
            σ3 ++ [select (accepts region state city) ds])
    end.
Proof.
  intros Hdf Hnd f2 f3 σ3. unfold sidebar.
  rewrite (bind_run _ _ _ _ _ (options_run _ _ _ Region Hdf)).
  rewrite (bind_run _ _ _ _ _ (region_level_run _ _ _ region Hdf Hnd)).
  fold f2.
  assert ((σ ++ [f2]) !! length σ = Some f2) as Hdf2 by apply lookup_new.
  rewrite (bind_run _ _ _ _ _ (options_run _ _ _ State Hdf2)).
  rewrite (bind_run _ _ _ _ _ (state_level_run _ _ _ state Hdf2
             (select_index_NoDup _ _ Hnd))).
  fold (cascaded ds region state). fold f3. fold σ3.
  assert (σ3 !! length (σ ++ [f2]) = Some f3) as Hdf3 by apply lookup_new.
  rewrite (bind_run _ _ _ _ _ (options_run _ _ _ City Hdf3)).
  assert (σ3 !! df = Some ds) as Hdf'.
  { unfold σ3. by do 2 apply lookup_app_l_Some. }
  unfold bind at 1.
  rewrite (filter_chain_run _ _ ds _ region state city Hdf' Hdf3 Hnd).
  by destruct (arm region state city).
Qed.

End script_facts.

(** ** The filter as a function of its four inputs *)

Section resolve_facts.
Import Pandas Table Dashboard.

Lemma arm_None region state city :
  arm region state city = ArmNone ↔ region = [] ∧ state = [] ∧ city = [].
Proof.
  destruct region, state, city; cbv [arm truthy negb andb];
    split; try done; intros (? & ? & ?); done.
Qed.

Lemma accepts_nil r : accepts [] [] [] r.
Proof. unfold accepts, allows. tauto. Qed.

(** On a data set with distinct labels [resolve] returns, and returns the
    selection of the table. *)
Lemma resolve_select ds region state city :
  NoDup (index ds) →
  resolve ds region state city = Ok (select (accepts region state city) ds).
Proof.
  intros Hnd. unfold resolve, run, bind.
  rewrite (sidebar_run [ds] 0 ds region state city eq_refl Hnd).
  destruct (arm region state city) eqn:Harm; simpl; try done.
  apply arm_None in Harm as (-> & -> & ->).
  rewrite select_all; [done|]. apply accepts_nil.
Qed.

Lemma availableStates_select ds region :
  NoDup (index ds) →
  availableStates ds region
  = Ok (col_unique State (select (allows Region region) ds)).
Proof.
  intros Hnd. unfold availableStates, run.
  rewrite (bind_run _ _ _ _ _ (region_level_run [ds] 0 ds region eq_refl Hnd)).
  by rewrite (options_run _ _ _ State (lookup_new _ _)).
Qed.

Lemma availableCities_select ds region state :
  NoDup (index ds) →
  availableCities ds region state
  = Ok (col_unique City (cascaded ds region state)).
Proof.
  intros Hnd. unfold availableCities, run.
  rewrite (bind_run _ _ _ _ _ (region_level_run [ds] 0 ds region eq_refl Hnd)).
  rewrite (bind_run _ _ _ _ _ (state_level_run _ _ _ state (lookup_new _ _)
             (select_index_NoDup _ _ Hnd))).
  by rewrite (options_run _ _ _ City (lookup_new _ _)).
Qed.

Lemma unique_elem l x : x ∈ unique l ↔ x ∈ l.
Proof.
  induction l as [|y l IH]; simpl; [done|].
  rewrite !elem_of_cons, list_elem_of_filter, IH.
  destruct (decide (x = y)); naive_solver.
Qed.

Lemma unique_NoDup l : NoDup (unique l).
Proof.
  induction l as [|y l IH]; simpl; [constructor|].
  apply NoDup_cons. split; [|by apply NoDup_filter].
  rewrite list_elem_of_filter. naive_solver.
Qed.

Lemma col_unique_elem col f x :
  x ∈ col_unique col f ↔ ∃ lr, lr ∈ rows f ∧ col lr.2 = x.
Proof.
  unfold col_unique. rewrite unique_elem, list_elem_of_fmap. naive_solver.
Qed.

Lemma read_csv_NoDup header records : NoDup (index (read_csv header records)).
Proof.
  unfold index, read_csv. simpl.
  rewrite fst_zip by (by rewrite length_seq). apply NoDup_seq.
Qed.

(** Lines 25-50 leave three objects: the file as read, the selection by
    date, and its copy, to which [df] refers. *)
Lemma load_run σ header records date1 date2 :
  let raw := read_csv header records in
  let cut := select (in_range date1 date2) raw in
  load header records date1 date2 σ
  = Ok (S (S (length σ)), ((σ ++ [raw]) ++ [cut]) ++ [cut]).
Proof.
  intros raw cut. unfold load, new, bind at 1.
  rewrite (bind_run _ _ _ _ _ (deref_run _ _ _ (lookup_new σ raw))).
  pose proof (read_csv_NoDup header records) as Hnd.
  erewrite bind_run.
  2:{ apply (getitem_run _ _ raw); [apply lookup_new|].
      apply (getitem_bool_select (in_range date1 date2)).
      intros l r Hin.
      rewrite (mask_get_and _ _ l (date_leb date1 (OrderDate r))
                 (date_leb (OrderDate r) date2)).
      - f_equal. unfold in_range.
        by destruct (date_leb date1 _ && date_leb _ date2).
      - by apply (mask_get_test (λ r, date_leb date1 (OrderDate r))).
      - by apply (mask_get_test (λ r, date_leb (OrderDate r) date2)). }
  fold cut. rewrite (copy_run _ _ cut) by apply lookup_new.
  rewrite !length_app. simpl. do 2 f_equal. lia.
Qed.

Lemma with_months_columns f : "month_year" ∈ columns (with_months f).
Proof.
  unfold with_months, set_column. simpl.
  repeat case_decide; rewrite ?elem_of_app, ?list_elem_of_singleton; auto.
Qed.

(** Lines 57-200 from any store in which [df] refers to [ds]: the frame
    [df] refers to at the end carries the two added columns exactly when
    the first arm of the chain ran, and it is the frame exported. *)
Lemma script_run σ df ds region state city :
  σ !! df = Some ds → NoDup (index ds) →
  let fd := match arm region state city with
            | ArmNone => df
            | _ => S (S (length σ))
            end in
  let final := match arm region state city with
               | ArmNone => with_months ds
               | _ => ds
               end in
  ∃ σ', script df region state city σ
        = Ok (mkOutcome (col_unique Region ds)
                        (col_unique State (select (allows Region region) ds))
                        (col_unique City (cascaded ds region state))
                        fd (to_csv final), σ')
        ∧ σ' !! df = Some final
        ∧ σ' !! fd = Some (with_months (select (accepts region state city) ds)).
Proof.
  intros Hdf Hnd. pose proof (lookup_lt_Some _ _ _ Hdf) as Hlt.
  unfold script, bind at 1. rewrite (sidebar_run σ df ds _ _ _ Hdf Hnd).
  set (f2 := select (allows Region region) ds).
  set (f3 := cascaded ds region state).
  assert (((σ ++ [f2]) ++ [f3]) !! df = Some ds) as Hdf'
    by (by do 2 apply lookup_app_l_Some).
  assert (length ((σ ++ [f2]) ++ [f3]) = S (S (length σ))) as Hlen
    by (rewrite !length_app; simpl; lia).
  destruct (arm region state city) eqn:Harm; cbv zeta; cbn [fst snd];
    rewrite ?Hlen.
  1:{ apply arm_None in Harm as (-> & -> & ->).
      rewrite (bind_run _ _ _ _ _ (setitem_run _ _ _ _ _ Hdf')).
      erewrite bind_run;
        [|apply setitem_run, list_lookup_insert_eq; rewrite Hlen; lia].
      erewrite bind_run;
        [|apply deref_run, list_lookup_insert_eq;
          rewrite length_insert, Hlen; lia].
      eexists. split; [done|].
      rewrite select_all by apply accepts_nil.
      split; apply list_lookup_insert_eq; rewrite length_insert, Hlen; lia. }
  all: set (out := select (accepts region state city) ds);
    assert ((((σ ++ [f2]) ++ [f3]) ++ [out]) !! S (S (length σ)) = Some out)
      as Hout by (rewrite <-Hlen; apply lookup_new);
    rewrite (bind_run _ _ _ _ _ (setitem_run _ _ _ _ _ Hout));
    (erewrite bind_run;
      [|apply setitem_run, list_lookup_insert_eq;
        rewrite length_app, Hlen; simpl; lia]);
    (erewrite bind_run;
      [|apply deref_run; rewrite !list_lookup_insert_ne by lia;
        by apply lookup_app_l_Some]);
    eexists; split; [done|]; split;
    [rewrite !list_lookup_insert_ne by lia; by apply lookup_app_l_Some
    |apply list_lookup_insert_eq;
     rewrite length_insert, length_app, Hlen; simpl; lia].
Qed.

(** A whole run never raises: the frame lines 25-50 build has the labels
    of a [RangeIndex], cut down; they are distinct. *)
Lemma session_runs header records date1 date2 region state city :
  ∃ out, session header records date1 date2 region state city = Ok out.
Proof.
  unfold session. rewrite (bind_run _ _ _ _ _ (load_run [] _ _ _ _)).
  set (raw := read_csv header records).
  set (cut := select (in_range date1 date2) raw).
  destruct (script_run [raw; cut; cut] 2 cut region state city eq_refl)
    as (σ' & Hrun & _).
  - apply select_index_NoDup, read_csv_NoDup.
  - simpl app. simpl length. rewrite Hrun. by eexists.
Qed.

Lemma NoDup_scenario : NoDup (index Scenario.dataset).
Proof. apply (bool_decide_unpack _). by vm_compute. Qed.

End resolve_facts.

(** ** The scenario of the specification, evaluated *)

Section scenario_runs.
Import Pandas Dashboard Scenario.

Example scenario_region_city :
  resolve dataset ["West"] [] ["SF"] = Ok (mkFrame cols [(2, sf)]).
Proof. reflexivity. Qed.

Example scenario_state_only :
  resolve dataset [] ["CA"] [] = Ok (mkFrame cols [(1, la); (2, sf)]).
Proof. reflexivity. Qed.

Example scenario_all_three :
  resolve dataset ["West"] ["CA"] ["LA"] = Ok (mkFrame cols [(1, la)]).
Proof. reflexivity. Qed.

Example scenario_states_of_west : availableStates dataset ["West"] = Ok ["CA"].
Proof. reflexivity. Qed.

Example scenario_cities_of_west : availableCities dataset ["West"] [] = Ok ["LA"; "SF"].
Proof. reflexivity. Qed.

(** With the selections ["West"], [] and ["SF"] the mask of line 78 is
    taken over the three rows of [df] and applied to the two rows of [df3]:
    the operands of [&] are aligned by label. *)
Example aligned_masks :
  mask_and (isin Region dataset ["West"])
           (isin City (mkFrame cols [(1, la); (2, sf)]) ["SF"])
  = [(0, false); (1, false); (2, true)].
Proof. reflexivity. Qed.

(** Boolean indexing does raise when the key misses a label of the frame. *)
Example unaligned_key_raises :
  getitem_bool dataset [(1, true); (2, false)] = Raise IndexingError.
Proof. reflexivity. Qed.

Example scenario_export_all_empty :
  csv <$> (match script 0 [] [] [] [dataset] with
           | Ok (out, _) => Some out
           | Raise _ => None
           end)
  = Some (cols ++ ["month_year"; "month"],
          [[Some (CDate d0); Some (CStr "NYC"); Some (CStr "NY");
            Some (CStr "East"); Some (CPeriod 2017 1); Some (CStr "January")];
           [Some (CDate d0); Some (CStr "LA"); Some (CStr "CA");
            Some (CStr "West"); Some (CPeriod 2017 1); Some (CStr "January")];
           [Some (CDate d0); Some (CStr "SF"); Some (CStr "CA");
            Some (CStr "West"); Some (CPeriod 2017 1); Some (CStr "January")]]).
Proof. reflexivity. Qed.

End scenario_runs.

(** ** The properties of the specification *)

Section claims.
Import Pandas Table Dashboard.

(** The eight rows of the resolution table and the conjunction of the
    constraints of the non-empty selections say the same. *)
Lemma accepts_table region state city r :
  accepts region state city r ↔ table region state city r.
Proof.
  unfold accepts.
  destruct region, state, city; simpl;
    rewrite ?allows_nil, ?allows_cons; tauto.
Qed.

(** C1.  For every data set (with the distinct labels the script gives it)
    and every three selections, lines 57-84 return exactly the rows of the
    data set that pass the membership test of each non-empty selection,
    in their order and under the same columns: row for row the eight cases
    of the table, and the data set itself when all three are empty. *)
Theorem resolve_table ds region state city :
  NoDup (index ds) →
  ∃ out, resolve ds region state city = Ok out
    ∧ columns out = columns ds
    ∧ rows out = filter (λ lr, accepts region state city lr.2) (rows ds)
    ∧ (∀ lr, lr ∈ rows out ↔
         lr ∈ rows ds
         ∧ (region ≠ [] → Region lr.2 ∈ region)
         ∧ (state ≠ [] → State lr.2 ∈ state)
         ∧ (city ≠ [] → City lr.2 ∈ city))
    ∧ (∀ lr, lr ∈ rows out ↔ lr ∈ rows ds ∧ table region state city lr.2)
    ∧ (region = [] → state = [] → city = [] → out = ds).
Proof.
  intros Hnd. exists (select (accepts region state city) ds).
  split; [by apply resolve_select|]. split; [done|]. split; [done|].
  split; [|split].
  - intros lr. rewrite select_rows_elem. unfold accepts, allows. tauto.
  - intros lr. rewrite select_rows_elem, accepts_table. tauto.
  - intros -> -> ->. apply select_all, accepts_nil.
Qed.

Lemma resolve_table_witness :
  ∃ out, resolve Scenario.dataset ["West"] [] ["SF"] = Ok out
    ∧ columns out = Scenario.cols
    ∧ rows out = [(2, Scenario.sf)].
Proof.
  destruct (resolve_table Scenario.dataset ["West"] [] ["SF"])
    as (out & Hout & Hcols & Hrows & _).
  - apply (bool_decide_unpack _). vm_compute. exact I.
  - exists out. split; [exact Hout|]. split; [exact Hcols|].
    rewrite Hrows. vm_compute. reflexivity.
Defined.

(** C2.  Whatever the state and city selections, with a non-empty region
    selection every row of the result has its region in the selection and
    no row with another region appears; more generally every row of the
    result satisfies the constraints of all non-empty selections at once. *)
Theorem resolve_conjunction ds region state city :
  NoDup (index ds) →
  ∃ out, resolve ds region state city = Ok out
    ∧ (∀ lr, lr ∈ rows out →
         (region ≠ [] → Region lr.2 ∈ region)
         ∧ (state ≠ [] → State lr.2 ∈ state)
         ∧ (city ≠ [] → City lr.2 ∈ city))
    ∧ (region ≠ [] → ∀ lr, Region lr.2 ∉ region → lr ∉ rows out).
Proof.
  intros Hnd. exists (select (accepts region state city) ds).
  split; [by apply resolve_select|]. split.
  - intros lr [Hacc _]%select_rows_elem. exact Hacc.
  - intros Hne lr Hnot [[Hreg _] _]%select_rows_elem. by apply Hnot, Hreg.
Qed.

Lemma resolve_conjunction_witness :
  ∃ out, resolve Scenario.dataset ["West"] ["NY"] [] = Ok out
    ∧ ∀ lr, lr ∈ rows out → Region lr.2 ∈ ["West"] ∧ State lr.2 ∈ ["NY"].
Proof.
  destruct (resolve_conjunction Scenario.dataset ["West"] ["NY"] [])
    as (out & Hout & Hall & _).
  - apply (bool_decide_unpack _). vm_compute. exact I.
  - exists out. split; [exact Hout|]. intros lr Hin.
    destruct (Hall lr Hin) as (Hr & Hs & _).
    split; [apply Hr | apply Hs]; discriminate.
Defined.

(** C3.  With all three selections empty the result is the data set, row
    for row and in the same order. *)
Theorem resolve_empty_selections ds : resolve ds [] [] [] = Ok ds.
Proof. reflexivity. Qed.

(** C4.  Resolving the result again with the same selections changes
    nothing. *)
Theorem resolve_idempotent ds region state city :
  NoDup (index ds) →
  ∃ out, resolve ds region state city = Ok out
    ∧ resolve out region state city = Ok out.
Proof.
  intros Hnd. exists (select (accepts region state city) ds).
  split; [by apply resolve_select|].
  rewrite resolve_select by by apply select_index_NoDup.
  f_equal. rewrite select_select. apply select_iff. tauto.
Qed.

Lemma resolve_idempotent_witness :
  ∃ out, resolve Scenario.dataset ["West"] [] ["SF"] = Ok out
    ∧ resolve out ["West"] [] ["SF"] = Ok out.
Proof.
  apply (resolve_idempotent Scenario.dataset ["West"] [] ["SF"]).
  apply (bool_decide_unpack _). vm_compute. exact I.
Defined.

(** C5.  The filter never raises: for every data set, the empty one
    included, and all selections, empty or not, matching or not, it returns
    a frame; on the empty data set the frame is empty. *)
Theorem resolve_total ds region state city :
  NoDup (index ds) →
  ∃ out, resolve ds region state city = Ok out
    ∧ (rows ds = [] → rows out = []).
Proof.
  intros Hnd. exists (select (accepts region state city) ds).
  split; [by apply resolve_select|].
  unfold select. simpl. by intros ->.
Qed.

Lemma resolve_total_witness :
  (∃ out, resolve (mkFrame Scenario.cols []) ["West"] ["CA"] ["LA"] = Ok out
     ∧ rows out = [])
  ∧ (∃ out, resolve Scenario.dataset ["North"] ["TX"] ["Austin"] = Ok out
       ∧ (rows Scenario.dataset = [] → rows out = [])).
Proof.
  split.
  - destruct (resolve_total (mkFrame Scenario.cols []) ["West"] ["CA"] ["LA"])
      as (out & Hout & Hrows).
    + apply (bool_decide_unpack _). vm_compute. exact I.
    + exists out. split; [exact Hout|]. apply Hrows. reflexivity.
  - apply (resolve_total Scenario.dataset ["North"] ["TX"] ["Austin"]).
    apply (bool_decide_unpack _). vm_compute. exact I.
Defined.

(** C6.  The options of the State multiselect are exactly the distinct
    states of the rows whose region is selected, or of all rows when no
    region is selected; with the selection ["West"], only states of rows
    whose region is "West". *)
Theorem availableStates_exact ds region :
  NoDup (index ds) →
  ∃ sts, availableStates ds region = Ok sts
    ∧ NoDup sts
    ∧ (∀ s, s ∈ sts ↔
         ∃ lr, lr ∈ rows ds ∧ State lr.2 = s
               ∧ (region ≠ [] → Region lr.2 ∈ region))
    ∧ (region = ["West"] →
       ∀ s, s ∈ sts → ∃ lr, lr ∈ rows ds ∧ State lr.2 = s ∧ Region lr.2 = "West").
Proof.
  intros Hnd. eexists. split; [by apply availableStates_select|].
  split; [apply unique_NoDup|].
  assert (∀ s, s ∈ col_unique State (select (allows Region region) ds) ↔
            ∃ lr, lr ∈ rows ds ∧ State lr.2 = s
                  ∧ (region ≠ [] → Region lr.2 ∈ region)) as Hstates.
  { intros s. rewrite col_unique_elem. unfold allows. split.
    - intros (lr & [? ?]%select_rows_elem & ?). by exists lr.
    - intros (lr & ? & ? & ?). exists lr. by rewrite select_rows_elem. }
  split; [exact Hstates|].
  intros -> s (lr & Hin & Hs & Hr)%Hstates. exists lr.
  split; [done|]. split; [done|].
  by apply list_elem_of_singleton, Hr.
Qed.

Lemma availableStates_exact_witness :
  ∃ sts, availableStates Scenario.dataset ["West"] = Ok sts
    ∧ ∀ s, s ∈ sts →
        ∃ lr, lr ∈ rows Scenario.dataset ∧ State lr.2 = s ∧ Region lr.2 = "West".
Proof.
  destruct (availableStates_exact Scenario.dataset ["West"])
    as (sts & Hsts & _ & _ & Hwest).
  - apply (bool_decide_unpack _). vm_compute. exact I.
  - exists sts. split; [exact Hsts|]. apply Hwest. reflexivity.
Defined.

(** C7.  Every state offered for a region selection, selected alone,
    resolves to a non-empty result, and so does every city offered for a
    region and state selection: an offered option never leads to an empty
    result by hierarchy mismatch.  (A data set that offers an option is
    not empty, so that is no extra assumption.) *)
Theorem offered_option_resolves ds region state :
  NoDup (index ds) →
  (∃ sts, availableStates ds region = Ok sts
     ∧ ∀ s, s ∈ sts →
         ∃ out, resolve ds region [s] [] = Ok out ∧ rows out ≠ [])
  ∧ (∃ cts, availableCities ds region state = Ok cts
       ∧ ∀ c, c ∈ cts →
           ∃ out, resolve ds region state [c] = Ok out ∧ rows out ≠ []).
Proof.
  intros Hnd. split.
  - eexists. split; [by apply availableStates_select|].
    intros s (lr & [Hreg Hin]%select_rows_elem & Hs)%col_unique_elem.
    eexists. split; [by apply resolve_select|].
    apply (elem_of_not_nil lr), select_rows_elem. split; [|done].
    unfold accepts. rewrite allows_nil, allows_cons, Hs.
    split; [done|]. split; [left|done].
  - eexists. split; [by apply availableCities_select|].
    intros c (lr & Hin & Hc)%col_unique_elem.
    unfold cascaded in Hin.
    apply select_rows_elem in Hin as [Hst [Hreg Hin]%select_rows_elem].
    eexists. split; [by apply resolve_select|].
    apply (elem_of_not_nil lr), select_rows_elem. split; [|done].
    unfold accepts. rewrite allows_cons, Hc.
    split; [done|]. split; [done|left].
Qed.

Lemma offered_option_resolves_witness :
  (∃ sts, availableStates Scenario.dataset ["West"] = Ok sts
     ∧ ∀ s, s ∈ sts →
         ∃ out, resolve Scenario.dataset ["West"] [s] [] = Ok out
                ∧ rows out ≠ [])
  ∧ (∃ cts, availableCities Scenario.dataset ["West"] ["CA"] = Ok cts
       ∧ ∀ c, c ∈ cts →
           ∃ out, resolve Scenario.dataset ["West"] ["CA"] [c] = Ok out
                  ∧ rows out ≠ []).
Proof.
  apply (offered_option_resolves Scenario.dataset ["West"] ["CA"]).
  apply (bool_decide_unpack _). vm_compute. exact I.
Defined.

(** C8.  The final [else] of the chain never runs: whatever the three
    selections, one of the seven arms before it applies; with all three
    non-empty it is the arm of line 75, [elif state and city]. *)
Theorem else_arm_unreachable :
  (∀ region state city, arm region state city ≠ ArmElse)
  ∧ (∀ r region s state c city,
       arm (r :: region) (s :: state) (c :: city) = ArmStateCity).
Proof.
  split.
  - intros [|r region] [|s state] [|c city]; cbv [arm truthy negb andb]; done.
  - reflexivity.
Qed.

(** C9.  After lines 58-62, the masks lines 76 and 78 take over [df] add
    nothing: in the arm "state and city" (state selection non-empty) and in
    the arm "region and city" (region selection non-empty) the selection
    is the one the city mask alone makes on [df3], and the one made with
    every mask taken over [df3]. *)
Theorem mixed_masks_redundant σ df ds region state city :
  σ !! df = Some ds → NoDup (index ds) →
  ∃ df3 σ3,
    (do df2 <- region_level df region; state_level df2 state) σ = Ok (df3, σ3)
    ∧ σ3 !! df3 = Some (cascaded ds region state)
    ∧ (∃ out, Cascaded.city_alone df3 city σ3 = Ok (length σ3, σ3 ++ [out]))
    ∧ (state ≠ [] →
         arm_body ArmStateCity df df3 region state city σ3
         = Cascaded.city_alone df3 city σ3
         ∧ arm_body ArmStateCity df df3 region state city σ3
           = Cascaded.state_city df3 state city σ3)
    ∧ (region ≠ [] →
         arm_body ArmRegionCity df df3 region state city σ3
         = Cascaded.city_alone df3 city σ3
         ∧ arm_body ArmRegionCity df df3 region state city σ3
           = Cascaded.region_city df3 region city σ3).
Proof.
  intros Hdf Hnd.
  set (f2 := select (allows Region region) ds).
  set (f3 := cascaded ds region state).
  exists (length (σ ++ [f2])), ((σ ++ [f2]) ++ [f3]).
  assert (((σ ++ [f2]) ++ [f3]) !! df = Some ds) as Hdf'
    by (by do 2 apply lookup_app_l_Some).
  pose proof (lookup_new (σ ++ [f2]) f3) as Hdf3.
  pose proof (cascaded_NoDup ds region state Hnd) as Hnd3.
  pose proof (cascaded_subseteq ds region state) as Hsub.
  split.
  { rewrite (bind_run _ _ _ _ _ (region_level_run _ _ _ region Hdf Hnd)).
    apply state_level_run; [apply lookup_new|by apply select_index_NoDup]. }
  split; [done|].
  unfold Cascaded.city_alone, Cascaded.state_city, Cascaded.region_city.
  rewrite (getitem_isin_run _ _ _ City city Hdf3 Hnd3).
  split; [by eexists|]. unfold arm_body. split.
  - intros Hst.
    rewrite (getitem_and_run _ _ _ _ _ State state City city
               Hdf' Hdf3 Hnd Hnd3 Hsub).
    rewrite (getitem_and_run _ _ _ _ _ State state City city
               Hdf3 Hdf3 Hnd3 Hnd3) by done.
    split; [|done]. do 4 f_equal. unfold f3, cascaded.
    rewrite !select_select. apply select_iff. intros r.
    destruct state; [done|]. rewrite allows_cons. tauto.
  - intros Hreg.
    rewrite (getitem_and_run _ _ _ _ _ Region region City city
               Hdf' Hdf3 Hnd Hnd3 Hsub).
    rewrite (getitem_and_run _ _ _ _ _ Region region City city
               Hdf3 Hdf3 Hnd3 Hnd3) by done.
    split; [|done]. do 4 f_equal. unfold f3, cascaded.
    rewrite !select_select. apply select_iff. intros r.
    destruct region; [done|]. rewrite allows_cons. tauto.
Qed.

Lemma mixed_masks_redundant_witness :
  ∃ df3 σ3,
    (do df2 <- region_level 0 ["West"]; state_level df2 ["CA"])
      [Scenario.dataset] = Ok (df3, σ3)
    ∧ arm_body ArmStateCity 0 df3 ["West"] ["CA"] ["SF"] σ3
      = Cascaded.city_alone df3 ["SF"] σ3
    ∧ arm_body ArmRegionCity 0 df3 ["West"] ["CA"] ["SF"] σ3
      = Cascaded.region_city df3 ["West"] ["SF"] σ3.
Proof.
  destruct (mixed_masks_redundant [Scenario.dataset] 0 Scenario.dataset
              ["West"] ["CA"] ["SF"])
    as (df3 & σ3 & Hrun & _ & _ & Hsc & Hrc).
  - reflexivity.
  - apply (bool_decide_unpack _). vm_compute. exact I.
  - exists df3, σ3. split; [exact Hrun|]. split.
    + apply Hsc. discriminate.
    + apply Hrc. discriminate.
Defined.

(** C10.  [filtered_df] is the object [df] refers to exactly when all
    three selections are empty.  The column ["month_year"] line 129 adds to
    [filtered_df] is then added to [df] and exported with it at line 199;
    with any non-empty selection [df] is, at the end, the frame it was, and
    the export is the export of that frame. *)
Theorem month_year_reaches_export σ df ds region state city :
  σ !! df = Some ds → NoDup (index ds) → "month_year" ∉ columns ds →
  ∃ out σ',
    script df region state city σ = Ok (out, σ')
    ∧ (filtered_df out = df ↔ region = [] ∧ state = [] ∧ city = [])
    ∧ ("month_year" ∈ (csv out).1 ↔ region = [] ∧ state = [] ∧ city = [])
    ∧ (region = [] ∧ state = [] ∧ city = [] →
         σ' !! df = Some (with_months ds) ∧ csv out = to_csv (with_months ds))
    ∧ (¬ (region = [] ∧ state = [] ∧ city = []) →
         σ' !! df = Some ds ∧ csv out = to_csv ds
         ∧ σ' !! filtered_df out
           = Some (with_months (select (accepts region state city) ds))).
Proof.
  intros Hdf Hnd Hcol. pose proof (lookup_lt_Some _ _ _ Hdf) as Hlt.
  destruct (script_run σ df ds region state city Hdf Hnd)
    as (σ' & Hrun & Hfin & Hfd).
  eexists _, σ'. split; [exact Hrun|].
  rewrite <-(arm_None region state city). simpl.
  destruct (arm region state city) eqn:Harm.
  1:{ split; [done|]. split; [|done].
      split; [done|]. intros _. apply with_months_columns. }
  all: split; [split; [lia|done]|];
    (split; [split; [by intros ?|done]|]);
    (split; [done|]); by intros _.
Qed.

Lemma month_year_reaches_export_witness :
  (∃ out σ', script 0 [] [] [] [Scenario.dataset] = Ok (out, σ')
     ∧ "month_year" ∈ (csv out).1)
  ∧ (∃ out σ', script 0 [] ["CA"] [] [Scenario.dataset] = Ok (out, σ')
       ∧ csv out = to_csv Scenario.dataset).
Proof.
  split.
  - destruct (month_year_reaches_export [Scenario.dataset] 0 Scenario.dataset
                [] [] [])
      as (out & σ' & Hrun & _ & Hcol & _).
    + reflexivity.
    + apply (bool_decide_unpack _). vm_compute. exact I.
    + apply (bool_decide_unpack _). vm_compute. exact I.
    + exists out, σ'. split; [exact Hrun|]. apply Hcol. done.
  - destruct (month_year_reaches_export [Scenario.dataset] 0 Scenario.dataset
                [] ["CA"] [])
      as (out & σ' & Hrun & _ & _ & _ & Hne).
    + reflexivity.
    + apply (bool_decide_unpack _). vm_compute. exact I.
    + apply (bool_decide_unpack _). vm_compute. exact I.
    + exists out, σ'. split; [exact Hrun|]. apply Hne.
      intros (_ & Hst & _). discriminate Hst.
Defined.

End claims.

(** ** Further properties of the sidebar and the chain *)

Section sidebar_properties.
Import Pandas Table Dashboard.

(** Lines 62-65.  The options of the City multiselect are exactly the
    distinct cities of the rows that pass the region and the state
    selection, each of the two counting as "any" when empty. *)
Theorem availableCities_exact ds region state :
  NoDup (index ds) →
  ∃ cts, availableCities ds region state = Ok cts
    ∧ NoDup cts
    ∧ ∀ c, c ∈ cts ↔
        ∃ lr, lr ∈ rows ds ∧ City lr.2 = c
              ∧ (region ≠ [] → Region lr.2 ∈ region)
              ∧ (state ≠ [] → State lr.2 ∈ state).
Proof.
  intros Hnd. eexists. split; [by apply availableCities_select|].
  split; [apply unique_NoDup|].
  intros c. rewrite col_unique_elem. unfold cascaded, allows. split.
  - intros (lr & [? [? ?]%select_rows_elem]%select_rows_elem & ?).
    by exists lr.
  - intros (lr & ? & ? & ? & ?). exists lr. by rewrite !select_rows_elem.
Qed.

Lemma availableCities_exact_witness :
  ∃ cts, availableCities Scenario.dataset ["West"] [] = Ok cts
    ∧ NoDup cts
    ∧ ∀ c, c ∈ cts ↔
        ∃ lr, lr ∈ rows Scenario.dataset ∧ City lr.2 = c
              ∧ (["West"] ≠ [] → Region lr.2 ∈ ["West"])
              ∧ (@nil string ≠ [] → State lr.2 ∈ @nil string).
Proof.
  apply (availableCities_exact Scenario.dataset ["West"] []).
  apply (bool_decide_unpack _). vm_compute. exact I.
Defined.

(** Lines 57-65.  The cascade only narrows: a state offered under a region
    selection is offered with no region selected, and a city offered under
    a state selection is offered with no state selected. *)
Theorem options_narrow ds region state :
  NoDup (index ds) →
  ∃ sts sts0 cts cts0,
    availableStates ds region = Ok sts
    ∧ availableStates ds [] = Ok sts0
    ∧ availableCities ds region state = Ok cts
    ∧ availableCities ds region [] = Ok cts0
    ∧ sts ⊆ sts0 ∧ cts ⊆ cts0.
Proof.
  intros Hnd. do 4 eexists.
  split; [by apply availableStates_select|].
  split; [by apply availableStates_select|].
  split; [by apply availableCities_select|].
  split; [by apply availableCities_select|].
  split.
  - intros s (lr & [_ Hin]%select_rows_elem & Hs)%col_unique_elem.
    apply col_unique_elem. exists lr. split; [|done].
    apply select_rows_elem. split; [|done]. by apply allows_nil.
  - intros c (lr & Hin & Hc)%col_unique_elem.
    apply col_unique_elem. exists lr. split; [|done].
    unfold cascaded in *. apply select_rows_elem in Hin as [_ Hin].
    apply select_rows_elem. split; [|done]. by apply allows_nil.
Qed.

Lemma options_narrow_witness :
  ∃ sts sts0 cts cts0,
    availableStates Scenario.dataset ["West"] = Ok sts
    ∧ availableStates Scenario.dataset [] = Ok sts0
    ∧ availableCities Scenario.dataset ["West"] ["CA"] = Ok cts
    ∧ availableCities Scenario.dataset ["West"] [] = Ok cts0
    ∧ sts ⊆ sts0 ∧ cts ⊆ cts0.
Proof.
  apply (options_narrow Scenario.dataset ["West"] ["CA"]).
  apply (bool_decide_unpack _). vm_compute. exact I.
Defined.

(** Lines 57-84.  A multiselect returns a sub-list of its options.  When
    each of the three selections was picked from the options offered for
    it, the filtered frame of a non-empty data set is not empty. *)
Theorem picked_options_nonempty ds region state city rgs sts cts :
  NoDup (index ds) → rows ds ≠ [] →
  run (λ df, options df Region) ds = Ok rgs →
  availableStates ds region = Ok sts →
  availableCities ds region state = Ok cts →
  region ⊆ rgs → state ⊆ sts → city ⊆ cts →
  ∃ out, resolve ds region state city = Ok out ∧ rows out ≠ [].
Proof.
  intros Hnd Hne Hrgs Hsts Hcts Hr Hs Hc.
  rewrite availableStates_select in Hsts by done.
  rewrite availableCities_select in Hcts by done.
  injection Hrgs as <-. injection Hsts as <-. injection Hcts as <-.
  eexists. split; [by apply resolve_select|].
  destruct city as [|c city].
  2:{ pose proof (Hc c ltac:(left)) as (lr & Hin & Hcity)%col_unique_elem.
      unfold cascaded in Hin.
      apply select_rows_elem in Hin as [Hst [Hreg Hin]%select_rows_elem].
      apply (elem_of_not_nil lr), select_rows_elem. split; [|done].
      unfold accepts. rewrite allows_cons, Hcity.
      split; [done|]. split; [done|left]. }
  destruct state as [|s state].
  2:{ pose proof (Hs s ltac:(left))
        as (lr & [Hreg Hin]%select_rows_elem & Hst)%col_unique_elem.
      apply (elem_of_not_nil lr), select_rows_elem. split; [|done].
      unfold accepts. rewrite allows_nil, allows_cons, Hst.
      split; [done|]. split; [left|done]. }
  destruct region as [|r region].
  2:{ pose proof (Hr r ltac:(left)) as (lr & Hin & Hreg)%col_unique_elem.
      apply (elem_of_not_nil lr), select_rows_elem. split; [|done].
      unfold accepts. rewrite !allows_nil, allows_cons, Hreg.
      split; [left|done]. }
  rewrite select_all by apply accepts_nil. done.
Qed.

Lemma picked_options_nonempty_witness :
  ∃ out, resolve Scenario.dataset ["West"; "East"] ["CA"] ["SF"; "LA"] = Ok out
         ∧ rows out ≠ [].
Proof.
  apply (picked_options_nonempty Scenario.dataset
           ["West"; "East"] ["CA"] ["SF"; "LA"]
           ["East"; "West"] ["NY"; "CA"] ["LA"; "SF"]).
  - apply (bool_decide_unpack _). vm_compute. exact I.
  - discriminate.
  - reflexivity.
  - reflexivity.
  - reflexivity.
  - apply (bool_decide_unpack _). vm_compute. exact I.
  - apply (bool_decide_unpack _). vm_compute. exact I.
  - apply (bool_decide_unpack _). vm_compute. exact I.
Defined.

End sidebar_properties.

Section chain_properties.
Import Pandas Table Dashboard.

Lemma allows_equiv col sel sel' r :
  (∀ x, x ∈ sel ↔ x ∈ sel') → allows col sel r ↔ allows col sel' r.
Proof.
  intros Heq. unfold allows.
  assert (sel = [] ↔ sel' = []) as Hnil.
  { destruct sel as [|x sel], sel' as [|x' sel']; try done.
    - exfalso. apply (not_elem_of_nil x'), Heq. left.
    - exfalso. apply (not_elem_of_nil x), Heq. left. }
  rewrite Hnil, Heq. done.
Qed.

(** Lines 57-84.  The selections are Python lists, but only the values in
    them matter: two runs whose selections hold the same values, in any
    order and with any repetition, give the same filtered frame. *)
Theorem resolve_selection_values ds region region' state state' city city' :
  NoDup (index ds) →
  (∀ x, x ∈ region ↔ x ∈ region') →
  (∀ x, x ∈ state ↔ x ∈ state') →
  (∀ x, x ∈ city ↔ x ∈ city') →
  resolve ds region state city = resolve ds region' state' city'
  ∧ ∃ out, resolve ds region state city = Ok out.
Proof.
  intros Hnd Hr Hs Hc. rewrite !resolve_select by done.
  split; [|by eexists]. f_equal. apply select_iff. intros r. unfold accepts.
  by rewrite (allows_equiv Region region region'),
    (allows_equiv State state state'), (allows_equiv City city city').
Qed.

Lemma resolve_selection_values_witness :
  resolve Scenario.dataset ["West"; "East"] [] ["SF"; "LA"; "SF"]
  = resolve Scenario.dataset ["East"; "West"; "West"] [] ["LA"; "SF"]
  ∧ ∃ out, resolve Scenario.dataset ["West"; "East"] [] ["SF"; "LA"; "SF"]
           = Ok out.
Proof.
  apply (resolve_selection_values Scenario.dataset).
  - apply (bool_decide_unpack _). vm_compute. exact I.
  - intros x. rewrite !elem_of_cons. tauto.
  - intros x. tauto.
  - intros x. rewrite !elem_of_cons. tauto.
Defined.

(** Lines 62-84.  The eight arms compute what one more level of the cascade
    would: [filtered_df] holds the frame of [df3] when no city is selected,
    and [df3[df3["City"].isin(city)]] otherwise. *)
Theorem chain_is_city_level ds region state city :
  NoDup (index ds) →
  ∃ f3,
    run (λ df, do df2 <- region_level df region;
               do df3 <- state_level df2 state; deref df3) ds = Ok f3
    ∧ resolve ds region state city
      = if truthy city then getitem_bool f3 (isin City f3 city) else Ok f3.
Proof.
  intros Hnd. exists (cascaded ds region state). split.
  - unfold run.
    rewrite (bind_run _ _ _ _ _ (region_level_run [ds] 0 ds region eq_refl Hnd)).
    rewrite (bind_run _ _ _ _ _ (state_level_run _ _ _ state (lookup_new _ _)
               (select_index_NoDup _ _ Hnd))).
    by rewrite (deref_run _ _ _ (lookup_new _ _)).
  - rewrite resolve_select by done.
    pose proof (cascaded_NoDup ds region state Hnd) as Hnd3.
    destruct city as [|c city]; simpl.
    + f_equal. unfold cascaded. rewrite select_select. apply select_iff.
      intros r. unfold accepts. rewrite (allows_nil City). tauto.
    + rewrite (getitem_bool_select (λ r, City r ∈ c :: city)).
      2:{ intros l r Hin. by apply mask_get_isin. }
      f_equal. unfold cascaded. rewrite !select_select. apply select_iff.
      intros r. unfold accepts. rewrite (allows_cons City). tauto.
Qed.

Lemma chain_is_city_level_witness :
  ∃ f3,
    run (λ df, do df2 <- region_level df ["West"];
               do df3 <- state_level df2 []; deref df3) Scenario.dataset = Ok f3
    ∧ resolve Scenario.dataset ["West"] [] ["SF"]
      = getitem_bool f3 (isin City f3 ["SF"]).
Proof.
  apply (chain_is_city_level Scenario.dataset ["West"] [] ["SF"]).
  apply (bool_decide_unpack _). vm_compute. exact I.
Defined.

(** Lines 57-84.  Relaxing a level, by clearing its selection or by adding
    values to it, never loses a row: the rows of the narrower result are a
    sub-sequence of the rows of the wider one. *)
Theorem resolve_relax ds region region' state state' city city' :
  NoDup (index ds) →
  region' = [] ∨ (region ≠ [] ∧ region ⊆ region') →
  state' = [] ∨ (state ≠ [] ∧ state ⊆ state') →
  city' = [] ∨ (city ≠ [] ∧ city ⊆ city') →
  ∃ out out',
    resolve ds region state city = Ok out
    ∧ resolve ds region' state' city' = Ok out'
    ∧ rows out `sublist_of` rows out'.
Proof.
  intros Hnd Hr Hs Hc. do 2 eexists.
  split; [by apply resolve_select|]. split; [by apply resolve_select|].
  unfold select. simpl.
  assert (∀ col sel sel' r,
            sel' = [] ∨ (sel ≠ [] ∧ sel ⊆ sel') →
            allows col sel r → allows col sel' r) as Hrelax.
  { intros col sel sel' r [->|[Hne Hsub]] Hal; [by apply allows_nil|].
    intros _. by apply Hsub, Hal. }
  rewrite <-(list_filter_filter_l (λ lr, accepts region state city lr.2)
               (λ lr, accepts region' state' city' lr.2)).
  - apply sublist_filter.
  - intros lr (Hr' & Hs' & Hc'). unfold accepts.
    split; [by apply (Hrelax Region region)|].
    split; [by apply (Hrelax State state)|by apply (Hrelax City city)].
Qed.

Lemma resolve_relax_witness :
  ∃ out out',
    resolve Scenario.dataset ["West"] ["CA"] ["SF"] = Ok out
    ∧ resolve Scenario.dataset ["West"; "East"] [] ["SF"; "NYC"] = Ok out'
    ∧ rows out `sublist_of` rows out'.
Proof.
  apply (resolve_relax Scenario.dataset).
  - apply (bool_decide_unpack _). vm_compute. exact I.
  - right. split; [discriminate|].
    apply (bool_decide_unpack _). vm_compute. exact I.
  - left. reflexivity.
  - right. split; [discriminate|].
    apply (bool_decide_unpack _). vm_compute. exact I.
Defined.

End chain_properties.

Section indexing_properties.
Import Pandas Table Dashboard.


Lemma reindex_Ok key idx :
  (∀ l, l ∈ idx → is_Some (mask_get key l)) → ∃ bs, reindex key idx = Ok bs.
Proof.
  induction idx as [|l idx IH]; simpl; intros Hall; [by eexists|].
  destruct (Hall l) as [b ->]; [left|].
  destruct IH as [bs ->]; [|by eexists].
  intros l' Hl'. apply Hall. by right.
Qed.



Lemma getitem_three_run σ df3 f3 region state city :
  σ !! df3 = Some f3 → NoDup (index f3) →
  arm_body ArmElse df3 df3 region state city σ
  = Ok (length σ,
        σ ++ [select (λ r, (Region r ∈ region ∧ State r ∈ state)
                           ∧ City r ∈ city) f3]).
Proof.
  intros Hdf3 Hnd. unfold arm_body.
  rewrite (bind_run _ _ _ _ _ (col_isin_run _ _ _ Region region Hdf3)).
  rewrite (bind_run _ _ _ _ _ (col_isin_run _ _ _ State state Hdf3)).
  rewrite (bind_run _ _ _ _ _ (col_isin_run _ _ _ City city Hdf3)).
  apply (getitem_run _ _ f3); [done|].
  apply getitem_bool_select. intros i r Hin.
  rewrite (mask_get_and _ _ i
             (bool_decide (Region r ∈ region) && bool_decide (State r ∈ state))
             (bool_decide (City r ∈ city))).
  - f_equal. by rewrite !bool_decide_and.
  - by apply mask_get_and; apply mask_get_isin.
  - by apply mask_get_isin.
Qed.

(** Lines 75-76 and 83-84.  The final [else] is never reached, and nothing
    is lost by that: after lines 58-62, with a non-empty region and state
    selection it would assign the very selection the arm
    [elif state and city] assigns. *)
Theorem else_arm_agrees σ df ds df3 region state city :
  σ !! df = Some ds → σ !! df3 = Some (cascaded ds region state) →
  NoDup (index ds) → region ≠ [] → state ≠ [] →
  arm_body ArmElse df df3 region state city σ
  = arm_body ArmStateCity df df3 region state city σ
  ∧ ∃ out, arm_body ArmElse df df3 region state city σ
           = Ok (length σ, σ ++ [out]).
Proof.
  intros Hdf Hdf3 Hnd Hr Hs.
  pose proof (cascaded_NoDup ds region state Hnd) as Hnd3.
  pose proof (cascaded_subseteq ds region state) as Hsub.
  change (arm_body ArmElse df df3 region state city σ)
    with (arm_body ArmElse df3 df3 region state city σ).
  rewrite (getitem_three_run _ _ _ region state city Hdf3 Hnd3).
  split; [|by eexists]. unfold arm_body.
  rewrite (getitem_and_run _ _ _ _ _ State state City city
             Hdf Hdf3 Hnd Hnd3 Hsub).
  do 4 f_equal. unfold cascaded. rewrite !select_select. apply select_iff.
  intros r. destruct region, state; try done. rewrite !allows_cons. tauto.
Qed.

Lemma else_arm_agrees_witness :
  let σ := [Scenario.dataset;
            mkFrame Scenario.cols [(1, Scenario.la); (2, Scenario.sf)]] in
  arm_body ArmElse 0 1 ["West"] ["CA"] ["SF"] σ
  = arm_body ArmStateCity 0 1 ["West"] ["CA"] ["SF"] σ
  ∧ ∃ out, arm_body ArmElse 0 1 ["West"] ["CA"] ["SF"] σ
           = Ok (length σ, σ ++ [out]).
Proof.
  apply (else_arm_agrees _ 0 Scenario.dataset 1 ["West"] ["CA"] ["SF"]).
  - reflexivity.
  - reflexivity.
  - apply (bool_decide_unpack _). vm_compute. exact I.
  - discriminate.
  - discriminate.
Defined.

End indexing_properties.

(** ** The date cut *)

Section date_properties.
Import Pandas Table Dashboard Dates.







Lemma read_csv_rows_elem header records i r :
  (i, r) ∈ rows (read_csv header records) ↔ records !! i = Some r.
Proof.
  unfold read_csv. simpl. rewrite list_elem_of_lookup. split.
  - intros [k Hk]. apply lookup_zip_with_Some in Hk
      as (j & r' & [= -> ->] & Hj & Hr).
    apply lookup_seq in Hj as [-> _]. done.
  - intros Hi. exists i. apply lookup_zip_with_Some. exists i, r.
    split; [done|]. split; [|done].
    apply lookup_seq. split; [done|]. by eapply lookup_lt_Some.
Qed.

Lemma in_range_spec date1 date2 r :
  in_range date1 date2 r ↔
  date_leb date1 (OrderDate r) = true ∧ date_leb (OrderDate r) date2 = true.
Proof. unfold in_range. by rewrite andb_True, !Is_true_true. Qed.


(** Lines 32-50.  The date cut never raises.  It leaves in [df], under the
    header of the file, exactly the records whose order date lies between
    the two chosen dates (both included), each under the number of its
    line in the file; the objects that existed before are untouched. *)
Theorem date_cut_exact σ header records date1 date2 :
  ∃ df σ' f,
    load header records date1 date2 σ = Ok (df, σ')
    ∧ σ' !! df = Some f
    ∧ columns f = header
    ∧ NoDup (index f)
    ∧ rows f `sublist_of` rows (read_csv header records)
    ∧ (∀ i r, (i, r) ∈ rows f ↔
         records !! i = Some r
         ∧ date_leb date1 (OrderDate r) = true
         ∧ date_leb (OrderDate r) date2 = true)
    ∧ (length σ ≤ df)%nat
    ∧ (∀ l g, σ !! l = Some g → σ' !! l = Some g).
Proof.
  do 3 eexists. split; [apply load_run|].
  split.
  { rewrite <-(Nat.add_0_r (S (S (length σ)))).
    replace (S (S (length σ)) + 0)
      with (length ((σ ++ [read_csv header records])
                    ++ [select (in_range date1 date2)
                          (read_csv header records)]) + 0)
      by (rewrite !length_app; simpl; lia).
    rewrite Nat.add_0_r. apply lookup_new. }
  split; [done|].
  split; [apply select_index_NoDup, read_csv_NoDup|].
  split; [apply sublist_filter|].
  split; [|split; [lia|]].
  - intros i r. rewrite select_rows_elem, in_range_spec, read_csv_rows_elem.
    simpl. tauto.
  - intros l g Hl. by do 3 apply lookup_app_l_Some.
Qed.




End date_properties.

(** ** The data viewer *)

Section view_properties.
Import Pandas Table Dashboard Views.

Lemma every_lookup {A} (step wait j : nat) (l : list A) :
  every (S step) wait l !! j = l !! (wait + j * S step).
Proof.
  revert wait j. induction l as [|x l IH]; intros wait j; simpl; [done|].
  destruct wait as [|w].
  - destruct j as [|j]; simpl; [done|].
    rewrite IH. f_equal. lia.
  - rewrite IH. done.
Qed.

Lemma py_slice_lookup {A} (start stop step j : nat) (l : list A) :
  py_slice start stop (S step) l !! j
  = if decide (start + j * S step < stop) then l !! (start + j * S step)
    else None.
Proof.
  unfold py_slice. rewrite every_lookup, lookup_drop. simpl.
  case_decide.
  - by rewrite lookup_take_lt by lia.
  - by rewrite lookup_take_ge by lia.
Qed.

Lemma py_slice_all {A} (n : nat) (l : list A) : py_slice 0 n 1 l = take n l.
Proof.
  unfold py_slice. rewrite drop_0. generalize (take n l). intros k.
  induction k as [|x k IH]; simpl; [done|]. by rewrite IH.
Qed.

(** Line 195.  The data viewer never raises, whatever the size of the
    frame.  It shows the first 500 rows (all of them when there are fewer)
    and, of the columns, those at the positions 1, 3, ..., 19 that exist:
    at most ten, never the first one. *)
Theorem view_data_window σ fd f :
  σ !! fd = Some f →
  ∃ v, view_data fd σ = Ok (v, σ)
    ∧ rows v = take 500 (rows f)
    ∧ length (rows v) = 500 `min` length (rows f)
    ∧ (∀ j, columns v !! j
            = if decide (2 * j + 1 < 20) then columns f !! (2 * j + 1)
              else None)
    ∧ (length (columns v) ≤ 10)%nat.
Proof.
  intros Hfd. unfold view_data.
  rewrite (bind_run _ _ _ _ _ (deref_run _ _ _ Hfd)).
  eexists. split; [done|]. simpl.
  assert (∀ j, py_slice 1 20 2 (columns f) !! j
               = if decide (2 * j + 1 < 20) then columns f !! (2 * j + 1)
                 else None) as Hcols.
  { intros j. rewrite py_slice_lookup.
    replace (1 + j * 2) with (2 * j + 1) by lia. done. }
  split; [apply py_slice_all|].
  split; [by rewrite py_slice_all, length_take|].
  split; [exact Hcols|].
  apply lookup_ge_None. rewrite Hcols. by rewrite decide_False by lia.
Qed.

Lemma view_data_window_witness :
  ∃ v, view_data 0 [Scenario.dataset] = Ok (v, [Scenario.dataset])
    ∧ rows v = rows Scenario.dataset
    ∧ columns v = ["City"; "Region"].
Proof.
  destruct (view_data_window [Scenario.dataset] 0 Scenario.dataset)
    as (v & Hv & Hrows & _ & Hcols & _).
  - reflexivity.
  - exists v. split; [exact Hv|]. split; [exact Hrows|].
    apply list_eq. intros j. rewrite Hcols.
    destruct j as [|[|[|j]]]; try reflexivity.
    case_decide; [|reflexivity].
    apply lookup_ge_None. simpl. lia.
Defined.

(** Lines 129, 179 and 195.  The two columns the script adds are appended
    after the columns of the file; for a file of twenty columns or more
    (the Superstore file has 21) the data viewer shows neither of them,
    but the same columns as before the additions. *)
Theorem view_data_hides_months f :
  (20 ≤ length (columns f))%nat →
  columns (iloc 500 1 20 2 (with_months f)) = columns (iloc 500 1 20 2 f)
  ∧ "month_year" ∈ columns (with_months f)
  ∧ "month" ∈ columns (with_months f).
Proof.
  intros Hlen.
  assert (∃ added, columns (with_months f) = columns f ++ added) as [added Hadd].
  { unfold with_months, set_column. simpl.
    repeat case_decide; rewrite <-?(assoc_L (++)); try by eexists.
    by exists []; rewrite app_nil_r. }
  split; [|split].
  - unfold iloc. cbn [columns]. rewrite Hadd. unfold py_slice.
    by rewrite take_app_le by done.
  - apply with_months_columns.
  - unfold with_months. generalize (set_column "month_year" to_period_M f).
    intros g. unfold set_column. simpl.
    case_decide; [done|]. apply elem_of_app. right. left.
Qed.

Lemma view_data_hides_months_witness :
  let f := mkFrame
             ["Row ID"; "Order ID"; "Order Date"; "Ship Date"; "Ship Mode";
              "Customer ID"; "Customer Name"; "Segment"; "Country"; "City";
              "State"; "Postal Code"; "Region"; "Product ID"; "Category";
              "Sub-Category"; "Product Name"; "Sales"; "Quantity";
              "Discount"; "Profit"] [] in
  columns (iloc 500 1 20 2 (with_months f)) = columns (iloc 500 1 20 2 f)
  ∧ "month_year" ∈ columns (with_months f)
  ∧ "month" ∈ columns (with_months f).
Proof.
  apply view_data_hides_months. vm_compute. lia.
Defined.

End view_properties.

(** ** The keys of the aggregates *)

Section aggregate_properties.
Import Pandas Table Dashboard Aggregates.

Lemma group_keys_sorted key f : StronglySorted String.le (group_keys key f).
Proof. unfold group_keys. apply StronglySorted_merge_sort; apply _. Qed.

Lemma group_keys_elem key f k :
  k ∈ group_keys key f ↔ ∃ lr, lr ∈ rows f ∧ key lr.2 = k.
Proof.
  unfold group_keys. by rewrite merge_sort_Permutation, col_unique_elem.
Qed.

Lemma group_keys_NoDup key f : NoDup (group_keys key f).
Proof.
  unfold group_keys. rewrite merge_sort_Permutation. apply unique_NoDup.
Qed.

(** In a strongly sorted list without repetition, a smaller element stands
    before a larger one. *)
Lemma sorted_position (l : list string) x y :
  StronglySorted String.le l → x ∈ l → y ∈ l →
  String.le x y → x ≠ y →
  ∃ i j, i < j ∧ l !! i = Some x ∧ l !! j = Some y.
Proof.
  intros Hs [i Hi]%list_elem_of_lookup [j Hj]%list_elem_of_lookup Hxy Hne.
  exists i, j. split; [|done].
  destruct (decide (i < j)) as [|Hge]; [done|]. exfalso.
  assert (i ≠ j) by (intros ->; congruence).
  assert (j < i) as Hlt by lia.
  apply Hne. apply (anti_symm String.le); [done|].
  pose proof (take_drop_middle l j y Hj) as Hsplit.
  rewrite <-Hsplit in Hs, Hi.
  apply StronglySorted_app in Hs as (_ & _ & Hs).
  apply StronglySorted_cons in Hs as [Hall _].
  rewrite Forall_forall in Hall. apply Hall.
  rewrite lookup_app_r in Hi by (rewrite length_take; lia).
  rewrite length_take_le in Hi by (apply Nat.lt_le_incl; by eapply lookup_lt_Some).
  destruct (i - j) as [|d] eqn:Hd; [lia|]. simpl in Hi.
  by eapply list_elem_of_lookup_2.
Qed.

(** Lines 57-121.  The Region table has one line per region that occurs in
    the filtered rows, no region twice, in alphabetical order; with a
    non-empty region selection, only selected regions. *)
Theorem region_table_keys_spec ds region state city :
  NoDup (index ds) →
  ∃ out ks,
    resolve ds region state city = Ok out
    ∧ region_table_keys 0 [out] = Ok (ks, [out])
    ∧ StronglySorted String.le ks
    ∧ NoDup ks
    ∧ (∀ k, k ∈ ks ↔
         ∃ lr, lr ∈ rows ds ∧ Region lr.2 = k
               ∧ (region ≠ [] → k ∈ region)
               ∧ (state ≠ [] → State lr.2 ∈ state)
               ∧ (city ≠ [] → City lr.2 ∈ city))
    ∧ (region ≠ [] → ks ⊆ region).
Proof.
  intros Hnd. do 2 eexists. split; [by apply resolve_select|].
  split; [done|]. split; [apply group_keys_sorted|].
  split; [apply group_keys_NoDup|].
  assert (∀ k, k ∈ group_keys Region (select (accepts region state city) ds) ↔
            ∃ lr, lr ∈ rows ds ∧ Region lr.2 = k
                  ∧ (region ≠ [] → k ∈ region)
                  ∧ (state ≠ [] → State lr.2 ∈ state)
                  ∧ (city ≠ [] → City lr.2 ∈ city)) as Hks.
  { intros k. rewrite group_keys_elem. split.
    - intros (lr & [(Hr & Hs & Hc) Hin]%select_rows_elem & <-). by exists lr.
    - intros (lr & Hin & <- & Hr & Hs & Hc). exists lr. split; [|done].
      by apply select_rows_elem. }
  split; [exact Hks|].
  intros Hne k (lr & _ & _ & Hr & _)%Hks. by apply Hr.
Qed.

Lemma region_table_keys_spec_witness :
  ∃ out ks,
    resolve Scenario.dataset ["West"; "East"] [] [] = Ok out
    ∧ region_table_keys 0 [out] = Ok (ks, [out])
    ∧ StronglySorted String.le ks
    ∧ ks ⊆ ["West"; "East"].
Proof.
  destruct (region_table_keys_spec Scenario.dataset ["West"; "East"] [] [])
    as (out & ks & Hout & Hks & Hsorted & _ & _ & Hsub).
  - apply (bool_decide_unpack _). vm_compute. exact I.
  - exists out, ks. split; [exact Hout|]. split; [exact Hks|].
    split; [exact Hsorted|]. apply Hsub. discriminate.
Defined.

End aggregate_properties.

(** ** The time series *)

Section linechart_properties.
Import Pandas Table Dashboard Aggregates.

Lemma ascii_compare_refl c : Ascii.compare c c = Eq.
Proof. unfold Ascii.compare. apply N.compare_refl. Qed.

Lemma string_compare_app p a b :
  String.compare (p +:+ a) (p +:+ b) = String.compare a b.
Proof.
  induction p as [|c p IH]; simpl; [done|]. by rewrite ascii_compare_refl.
Qed.

Lemma string_le_app p a b : String.le (p +:+ a) (p +:+ b) ↔ String.le a b.
Proof. unfold String.le, String.leb. by rewrite string_compare_app. Qed.

Lemma string_app_inj p a b : p +:+ a = p +:+ b → a = b.
Proof. induction p as [|c p IH]; simpl; [done|]. intros [= ?]. auto. Qed.

Lemma get_set_cell name c ex : get_cell name (set_cell name c ex) = Some c.
Proof.
  induction ex as [|[n c'] ex IH]; simpl.
  - by rewrite decide_True.
  - destruct (decide (n = name)) as [->|Hne]; simpl.
    + by rewrite decide_True.
    + by rewrite decide_False.
Qed.

Lemma get_set_cell_ne name name' c ex :
  name ≠ name' → get_cell name (set_cell name' c ex) = get_cell name ex.
Proof.
  intros Hne. induction ex as [|[n c'] ex IH]; simpl.
  - by rewrite decide_False.
  - destruct (decide (n = name')) as [->|Hne']; simpl.
    + by rewrite !decide_False.
    + destruct (decide (n = name)); [done|apply IH].
Qed.

(** After lines 129 and 179 the key of a row at line 133 is its order
    date, formatted. *)
Lemma with_months_keys f k :
  k ∈ group_keys period_key (with_months f) ↔
  ∃ lr, lr ∈ rows f
        ∧ k = strftime_Y_b (year (OrderDate lr.2)) (month (OrderDate lr.2)).
Proof.
  rewrite group_keys_elem. unfold with_months, set_column. simpl.
  setoid_rewrite <-list_fmap_compose. setoid_rewrite list_elem_of_fmap.
  assert (∀ r c1 c2,
            get_cell "month_year"
              (set_cell "month" c2 (set_cell "month_year" c1 (extra r)))
            = Some c1) as Hget.
  { intros r c1 c2. rewrite get_set_cell_ne by done. apply get_set_cell. }
  split.
  - intros (lr' & (lr & -> & Hin) & <-). exists lr. split; [done|].
    unfold period_key. simpl. by rewrite Hget.
  - intros (lr & Hin & ->). eexists. split; [by exists lr|].
    unfold period_key. simpl. by rewrite Hget.
Qed.

(** Lines 129-133.  The points of the time series are the formatted months
    that occur in the filtered rows, each once, in the order of the
    formatted strings.  Within a year that is the alphabetical order of the
    month abbreviations, not the order of the calendar: of two months of
    one year, the one whose abbreviation comes first stands first. *)
Theorem linechart_alphabetical f lr1 lr2 :
  lr1 ∈ rows f → lr2 ∈ rows f →
  year (OrderDate lr1.2) = year (OrderDate lr2.2) →
  String.le (month_abbr (month (OrderDate lr1.2)))
            (month_abbr (month (OrderDate lr2.2))) →
  month_abbr (month (OrderDate lr1.2)) ≠ month_abbr (month (OrderDate lr2.2)) →
  ∃ ks,
    linechart_keys 0 [with_months f] = Ok (ks, [with_months f])
    ∧ StronglySorted String.le ks
    ∧ NoDup ks
    ∧ (∀ k, k ∈ ks ↔
         ∃ lr, lr ∈ rows f
               ∧ k = strftime_Y_b (year (OrderDate lr.2))
                       (month (OrderDate lr.2)))
    ∧ ∃ i j, i < j
        ∧ ks !! i = Some (strftime_Y_b (year (OrderDate lr1.2))
                            (month (OrderDate lr1.2)))
        ∧ ks !! j = Some (strftime_Y_b (year (OrderDate lr2.2))
                            (month (OrderDate lr2.2))).
Proof.
  intros Hin1 Hin2 Hyear Hle Hne. eexists. split; [done|].
  split; [apply group_keys_sorted|]. split; [apply group_keys_NoDup|].
  split; [apply with_months_keys|].
  apply sorted_position.
  - apply group_keys_sorted.
  - apply with_months_keys. by exists lr1.
  - apply with_months_keys. by exists lr2.
  - unfold strftime_Y_b. rewrite Hyear. by rewrite !string_le_app.
  - unfold strftime_Y_b. rewrite Hyear.
    intros Heq. by do 2 apply string_app_inj in Heq.
Qed.

Lemma linechart_alphabetical_witness :
  let jan := mkRow "West" "CA" "LA" (mkDate 2017 1 15) [] in
  let apr := mkRow "West" "CA" "SF" (mkDate 2017 4 2) [] in
  let f := mkFrame Scenario.cols [(0, jan); (1, apr)] in
  ∃ ks,
    linechart_keys 0 [with_months f] = Ok (ks, [with_months f])
    ∧ ∃ i j, i < j
        ∧ ks !! i = Some "2017 : Apr"
        ∧ ks !! j = Some "2017 : Jan".
Proof.
  intros jan apr f.
  destruct (linechart_alphabetical f (1, apr) (0, jan))
    as (ks & Hks & _ & _ & _ & i & j & Hlt & Hi & Hj).
  - simpl. right. left.
  - simpl. left.
  - reflexivity.
  - vm_compute. exact I.
  - discriminate.
  - exists ks. split; [exact Hks|]. exists i, j.
    split; [exact Hlt|]. split; [exact Hi|exact Hj].
Defined.

Example linechart_of_four_months :
  group_keys period_key
    (with_months
       (mkFrame Scenario.cols
          [(0, mkRow "West" "CA" "LA" (mkDate 2017 1 15) []);
           (1, mkRow "West" "CA" "SF" (mkDate 2017 2 3) []);
           (2, mkRow "East" "NY" "NYC" (mkDate 2016 12 24) []);
           (3, mkRow "West" "CA" "LA" (mkDate 2017 4 2) []);
           (4, mkRow "West" "CA" "LA" (mkDate 2017 1 30) [])]))
  = ["2016 : Dec"; "2017 : Apr"; "2017 : Feb"; "2017 : Jan"].
Proof. vm_compute. reflexivity. Qed.

End linechart_properties.
